(** * StorageDistributed: the distributed-table engine

    A shallow embedding of [dbms/src/Storages/StorageDistributed.cpp] and the
    properties of its query retargeting, read fan-out, write eligibility,
    column lookup and directory-monitor bookkeeping.

    Conventions of the embedding.
    - A C++ method that mutates its object or the process state is a
      computation in the state-and-exception monad [M]; a [throw] is [Throw].
    - A query is reached through an [ASTPtr], an address in a store of query
      objects; [size_t] values are naturals taken modulo [2^64].
    - Objects built by collaborators whose code lives elsewhere (streams,
      sinks, monitors) are kept as the record of what they were built from. *)

From stdpp Require Import gmap strings list fin_maps.
From Stdlib Require Import NArith Lia.

Local Set Warnings "-register-all,-clear-no-such-hyp".

(** ** Exceptions and the state monad *)

Inductive ErrorCode : Type :=
| STORAGE_REQUIRES_PARAMETER   (* thrown by [write] *)
| BAD_CAST                     (* thrown by [typeid_cast] to a reference *)
| NULL_DEREFERENCE             (* use of a null or dangling [ASTPtr] *)
| FILE_EXISTS                  (* Poco: mkdir over a regular file *)
| PATH_NOT_FOUND               (* Poco: mkdir or opendir below a missing directory *)
| NOT_A_DIRECTORY              (* Poco: mkdir below a regular file (ENOTDIR) *)
| NO_SUCH_COLUMN_IN_TABLE.     (* a real column that the table does not have *)

Inductive Result (A : Type) : Type :=
| Ok (a : A)
| Throw (e : ErrorCode).
Arguments Ok {A} a.
Arguments Throw {A} e.

Definition M (S A : Type) : Type := S → Result (A * S).

Definition ret {S A} (a : A) : M S A := λ s, Ok (a, s).
Definition bind {S A B} (c : M S A) (k : A → M S B) : M S B :=
  λ s, match c s with
       | Ok (a, s') => k a s'
       | Throw e => Throw e
       end.
Definition throw {S A} (e : ErrorCode) : M S A := λ _, Throw e.
Definition get {S} : M S S := λ s, Ok (s, s).
Definition modify {S} (f : S → S) : M S unit := λ s, Ok (tt, f s).

(** Runs a computation on one component of a larger state. *)
Definition zoom {S T A} (proj : T → S) (upd : S → T → T) (c : M S A) : M T A :=
  λ t, match c (proj t) with
       | Ok (a, s') => Ok (a, upd s' t)
       | Throw e => Throw e
       end.

#[export] Instance M_ret {S} : MRet (M S) := λ A, @ret S A.
#[export] Instance M_bind {S} : MBind (M S) := λ A B k c, @bind S A B c k.

(** ** Query syntax trees *)

(** What an identifier names; this file builds [Database] and [Table] ones. *)
Inductive IdentifierKind : Type := Column | Database | Table | Format.

(** The nodes the storage touches. A select query holds its database and
    table as child nodes, an insert query as bare strings next to an optional
    nested select; [children] stands for the members this file never reads. *)
Inductive IAST : Type :=
| Identifier (name : string) (kind : IdentifierKind)
| SelectQuery (database table : option IAST) (children : list IAST)
| InsertQuery (database table : string) (select : option IAST) (children : list IAST)
| OtherNode (id : string) (children : list IAST).

Module ASTSelectQuery.
Record t : Type := Build
  { database : option IAST; table : option IAST; children : list IAST }.
End ASTSelectQuery.

Module ASTInsertQuery.
Record t : Type := Build
  { database : string; table : string; select : option IAST; children : list IAST }.
End ASTInsertQuery.

(** The object store: [ASTPtr] is a nullable address, [new] appends. *)
Abbreviation Heap := (list IAST).
Definition ASTPtr : Type := option nat.
Definition nullptr : ASTPtr := None.

Definition deref (p : ASTPtr) : M Heap IAST :=
  λ h, match p with
       | Some a => match h !! a with
                   | Some node => Ok (node, h)
                   | None => Throw NULL_DEREFERENCE
                   end
       | None => Throw NULL_DEREFERENCE
       end.

(** A sharding-key argument the constructor can read: null, or a live object. *)
Definition sharding_key_readable (h : Heap) (sharding_key_ : ASTPtr) : Prop :=
  sharding_key_ = nullptr ∨ ∃ a key, sharding_key_ = Some a ∧ h !! a = Some key.

Definition new (node : IAST) : M Heap ASTPtr :=
  λ h, Ok (Some (length h), h ++ [node]).

Definition assign (a : nat) (node : IAST) : M Heap unit :=
  modify (λ h : Heap, <[a := node]> h).

(** Modelled from the spec: [IAST::clone] is declared outside this file.
    Following "produce a new, independent query description identical to the
    input", it allocates a fresh object holding a copy of the whole tree. *)
Definition clone (query : ASTPtr) : M Heap ASTPtr :=
  node ← deref query; new node.

(** The two query classes [rewriteImpl] is specialised for; the primary
    template is deleted, so no other class has an instance. [downcast] is the
    dynamic type test of [typeid_cast], [upcast] the view as an [IAST]. *)
Class Rewritable (ASTType : Type) : Type :=
  { downcast : IAST → option ASTType;
    upcast : ASTType → IAST;
    rewriteImpl : ASTType → string → string → ASTType }.

(** select query has database and table names as AST pointers *)
#[export] Instance rewritable_select : Rewritable ASTSelectQuery.t :=
  {| downcast node :=
       match node with
       | SelectQuery d t c => Some (ASTSelectQuery.Build d t c)
       | _ => None
       end;
     upcast query :=
       SelectQuery (ASTSelectQuery.database query) (ASTSelectQuery.table query)
                   (ASTSelectQuery.children query);
     rewriteImpl query database table :=
       ASTSelectQuery.Build
         (Some (Identifier database Database))
         (Some (Identifier table Table))
         (ASTSelectQuery.children query) |}.

(** insert query has database and table names as bare strings *)
#[export] Instance rewritable_insert : Rewritable ASTInsertQuery.t :=
  {| downcast node :=
       match node with
       | InsertQuery d t s c => Some (ASTInsertQuery.Build d t s c)
       | _ => None
       end;
     upcast query :=
       InsertQuery (ASTInsertQuery.database query) (ASTInsertQuery.table query)
                   (ASTInsertQuery.select query) (ASTInsertQuery.children query);
     rewriteImpl query database table :=
       ASTInsertQuery.Build
         database
         table
         (* make sure query is not INSERT SELECT *)
         None
         (ASTInsertQuery.children query) |}.

(** Modelled from the spec: [typeid_cast] is declared outside this file. It
    is the "runtime type identification" behind the rewrite: cast to a
    reference, it gives the object behind [p] seen as an [ASTType], and stops
    with BAD_CAST when the object is of another class. The reference is the
    address together with the object read through it. *)
Definition typeid_cast (ASTType : Type) `{Rewritable ASTType} (p : ASTPtr)
  : M Heap (nat * ASTType) :=
  node ← deref p;
  match p, downcast node with
  | Some a, Some obj => mret (a, obj)
  | _, _ => throw BAD_CAST
  end.

(** Creates a copy of the query, changes the database and table names. *)
Definition rewriteQuery (ASTType : Type) `{Rewritable ASTType}
    (query : ASTPtr) (database table : string) : M Heap ASTPtr :=
  modified_query_ast ← clone query;
  ref ← typeid_cast ASTType modified_query_ast;
  assign (fst ref) (upcast (rewriteImpl (snd ref) database table)) ;;
  mret modified_query_ast.

(** ** Cluster, settings and query context *)

(** [size_t] arithmetic: 64-bit unsigned, wrapping. *)
Definition size_t_modulus : N := 2 ^ 64.
Definition size_t_add (a b : N) : N := ((a + b) mod size_t_modulus)%N.

(** A connection pool and a table are handles to objects owned elsewhere. *)
Definition ConnectionPoolPtr : Type := nat.
Definition StoragePtr : Type := nat.
Abbreviation Tables := (gmap string StoragePtr).

(** Modelled from the spec: [Cluster] is declared outside this file. Of the
    "static description of shards" the storage reads the remote connection
    pools, in order, and the number of local replicas. *)
Module Cluster.
Record t : Type := Build
  { pools : list ConnectionPoolPtr;   (* one pool per remote shard *)
    local_nodes_num : N }.            (* a [size_t] *)
Definition getLocalNodesNum (cluster : t) : N := local_nodes_num cluster.
Definition pools_size (cluster : t) : N := N.of_nat (length (pools cluster)).

(** Both counts come from the cluster's configured addresses, so their sum
    is representable as a [size_t]. *)
Definition fits (cluster : t) : Prop :=
  (pools_size cluster + local_nodes_num cluster < size_t_modulus)%N.
End Cluster.

(** The two settings [read] touches. *)
Module Settings.
Record t : Type := Build
  { queue_max_wait_ms : Z;
    limits_max_execution_time : Z }.
Definition set_queue_max_wait_ms (v : Z) (s : t) : t :=
  Build v (limits_max_execution_time s).
End Settings.

(** Modelled from the spec: [Context] is declared outside this file. What
    [read] uses of it: its settings and its "externally-supplied temporary
    tables", looked up and added by name. *)
Module Context.
Record t : Type := Build
  { settings : Settings.t;
    external_tables : Tables }.
Definition setSettings (s : Settings.t) (c : t) : t :=
  Build s (external_tables c).
Definition tryGetExternalTable (c : t) (table_name : string) : option StoragePtr :=
  external_tables c !! table_name.
Definition addExternalTable (table_name : string) (storage : StoragePtr) (c : t) : t :=
  Build (settings c) (<[table_name := storage]> (external_tables c)).
End Context.

Inductive QueryProcessingStage : Type :=
| FetchColumns | WithMergeableState | Complete.

(** Modelled from the spec: the stream classes are declared outside this
    file. A stream is what it was opened with. A remote stream is
    "open_stream(pool, retargeted_query, settings, temp_tables,
    processed_stage)", "carrying the retargeted query and a copy of any
    externally-supplied temporary tables"; a local stream is
    "execute(retargeted_query, context, processed_stage)". *)
Inductive BlockInputStream : Type :=
| RemoteBlockInputStream (pool : ConnectionPoolPtr) (query : string)
    (settings : Settings.t) (external_tables : Tables) (stage : QueryProcessingStage)
| InterpreterSelectQuery_execute (query_ast : ASTPtr) (context : Context.t)
    (to_stage : QueryProcessingStage).

(** Modelled from the spec: the "output_sink" [write] returns, as the table
    and the insert query it was built over. *)
Record DistributedBlockOutputStream : Type :=
  { sink_storage : string;      (* the table written through, by name *)
    sink_query_ast : ASTPtr }.

Definition DataType : Type := string.
Definition NameAndTypePair : Type := string * DataType.
Definition NamesAndTypesList : Type := list NameAndTypePair.

Record ExpressionActions : Type :=
  { analyzed_ast : ASTPtr; analyzed_columns : NamesAndTypesList; project_result : bool }.

(** Functions of the code base that this file calls and does not define. *)
Class Collaborators : Type :=
  { escapeForFileName : string → string;
    queryToString : IAST → string;
    getColumnName : IAST → string;
    Cluster_saturate : Z → Z → Z;
    VirtualColumnFactory_tryGetType : string → option DataType;
    VirtualColumnFactory_hasColumn : string → bool;
    getRealColumn : NamesAndTypesList → string → Result NameAndTypePair;
    hasRealColumn : NamesAndTypesList → string → bool }.

(** ** File system (Poco::File, Poco::DirectoryIterator) *)

Inductive FileKind : Type := RegularFile | Directory.

#[export] Instance FileKind_eq_dec : EqDecision FileKind.
Proof. solve_decision. Defined.

(** A path is its list of components, root first: the string
    [data_path_ + x + '/'] is [data_path_ ++ [x]]. *)
Abbreviation Path := (list string).
Abbreviation FileSystem := (gmap (list string) FileKind).

Definition parent (p : Path) : Path := removelast p.

(** Whether a name on the way to [p] belongs to a regular file. [mkdir] then
    fails with ENOTDIR, and with ENOENT only when the way is free of files and
    the parent is missing. *)
Definition below_regular_file (fs : FileSystem) (p : Path) : bool :=
  existsb (λ n, bool_decide (fs !! take n p = Some RegularFile)) (seq 0 (length p)).

(** [Poco::File{p}.createDirectory()]: false when the directory is there,
    otherwise one [mkdir], which needs the parent and refuses a taken name. *)
Definition File_createDirectory (p : Path) : M FileSystem bool :=
  λ fs, match fs !! p with
        | Some Directory => Ok (false, fs)
        | Some RegularFile => Throw FILE_EXISTS
        | None =>
            match fs !! parent p with
            | Some Directory => Ok (true, <[p := Directory]> fs)
            | _ => if below_regular_file fs p
                   then Throw NOT_A_DIRECTORY
                   else Throw PATH_NOT_FOUND
            end
        end.

(** When [createDirectory] goes through: the directory is there already, or
    the name is free below an existing parent. *)
Definition spool_usable (fs : FileSystem) (spool : Path) : Prop :=
  fs !! spool = Some Directory
  ∨ (fs !! spool = None ∧ fs !! parent spool = Some Directory).

Definition File_isDirectory (p : Path) : M FileSystem bool :=
  λ fs, match fs !! p with
        | Some Directory => Ok (true, fs)
        | Some RegularFile => Ok (false, fs)
        | None => Throw PATH_NOT_FOUND
        end.

Definition child_name (p q : Path) : option string :=
  match last q with
  | Some entry => if decide (q = p ++ [entry]) then Some entry else None
  | None => None
  end.

Definition directory_entries (fs : FileSystem) (p : Path) : list string :=
  omap (child_name p) (map_to_list fs).*1.

(** [Poco::DirectoryIterator{p}] run to its end: the names of the entries of
    directory [p], each once, in the order the system lists them. *)
Definition DirectoryIterator (p : Path) : M FileSystem (list string) :=
  λ fs, match fs !! p with
        | Some Directory => Ok (directory_entries fs p, fs)
        | _ => Throw PATH_NOT_FOUND
        end.

(** Those of [entries] that are directories below [p]. *)
Definition subdirectories (fs : FileSystem) (p : Path) (entries : list string) : list string :=
  filter (λ entry, fs !! (p ++ [entry]) = Some Directory) entries.

(** ** Directory monitors and the process state *)

Inductive TaskEvent : Type :=
| TaskStarted (id : nat) (name : string)
| TaskStopped (id : nat).

Module DirectoryMonitor.
Record t : Type := Build
  { id : nat;            (* the background task it owns *)
    name : string;       (* the shard's directory name *)
    path : Path }.       (* the shard's spool directory *)
End DirectoryMonitor.

Record World : Type :=
  { heap : Heap;
    fs : FileSystem;
    tasks : list TaskEvent }.   (* background tasks started and stopped so far *)

Definition in_heap {A} : M Heap A → M World A :=
  zoom heap (λ h w, {| heap := h; fs := fs w; tasks := tasks w |}).
Definition in_fs {A} : M FileSystem A → M World A :=
  zoom fs (λ f w, {| heap := heap w; fs := f; tasks := tasks w |}).
Definition log_task (e : TaskEvent) : M World unit :=
  modify (λ w, {| heap := heap w; fs := fs w; tasks := tasks w ++ [e] |}).

(** Modelled from the spec: [DirectoryMonitor] is declared outside this file.
    A monitor "owns a spool directory path" and has "exclusive ownership of a
    background task": building one starts the task, which is logged, and the
    position of that entry in the log identifies the task. *)
Definition DirectoryMonitor_new (storage_path : Path) (name : string)
  : M World DirectoryMonitor.t :=
  w ← get;
  let id := length (tasks w) in
  log_task (TaskStarted id name);;
  mret (DirectoryMonitor.Build id name (storage_path ++ [name])).

(** Modelled from the spec: the destructor of [DirectoryMonitor]. A monitor
    is "destroyed (task stopped) on table shutdown", with "pending files left
    intact on disk". *)
Definition DirectoryMonitor_delete (monitor : DirectoryMonitor.t) : M World unit :=
  log_task (TaskStopped (DirectoryMonitor.id monitor)).

(** The monitors built, one after the other, for the shard directories
    [names] when [next_id] tasks were started before, and the tasks they
    start. *)
Fixpoint monitors_for (storage_path : Path) (next_id : nat) (names : list string)
  : list (string * DirectoryMonitor.t) :=
  match names with
  | [] => []
  | name :: names' =>
      (name, DirectoryMonitor.Build next_id name (storage_path ++ [name]))
        :: monitors_for storage_path (S next_id) names'
  end.

Fixpoint tasks_for (next_id : nat) (names : list string) : list TaskEvent :=
  match names with
  | [] => []
  | name :: names' => TaskStarted next_id name :: tasks_for (S next_id) names'
  end.

Fixpoint for_each {S A} (l : list A) (body : A → M S unit) : M S unit :=
  match l with
  | [] => mret tt
  | x :: l' => body x;; for_each l' body
  end.

(** ** The table *)

Module StorageDistributed.

Record t : Type := Build
  { name : string;
    columns : NamesAndTypesList;
    remote_database : string;
    remote_table : string;
    context : Context.t;
    cluster : Cluster.t;
    sharding_key_expr : option ExpressionActions;
    sharding_key_column_name : string;
    write_enabled : bool;
    path : Path;
    (** set by the caller before [read], consumed by it *)
    external_tables : Tables;
    directory_monitors : gmap string DirectoryMonitor.t }.

Definition set_external_tables (v : Tables) (s : t) : t :=
  Build (name s) (columns s) (remote_database s) (remote_table s) (context s)
        (cluster s) (sharding_key_expr s) (sharding_key_column_name s)
        (write_enabled s) (path s) v (directory_monitors s).

Definition set_directory_monitors (v : gmap string DirectoryMonitor.t) (s : t) : t :=
  Build (name s) (columns s) (remote_database s) (remote_table s) (context s)
        (cluster s) (sharding_key_expr s) (sharding_key_column_name s)
        (write_enabled s) (path s) (external_tables s) v.

(** Two states of the table that differ at most in the monitor mapping. *)
Definition same_but_monitors (s s' : t) : Prop :=
  s' = set_directory_monitors (directory_monitors s') s.

(** A method runs on the table object and on the process state. *)
Record Obj : Type := { this : t; world : World }.

Definition get_this : M Obj t := λ o, Ok (this o, o).
Definition update_this (f : t → t) : M Obj unit :=
  modify (λ o, {| this := f (this o); world := world o |}).
Definition in_world {A} : M World A → M Obj A :=
  zoom world (λ w o, {| this := this o; world := w |}).

Section Methods.
Context `{Collaborators}.

Definition createDirectoryMonitor (name : string) : M Obj unit :=
  self ← get_this;
  (* the argument of emplace is built before the key is looked up *)
  monitor ← in_world (DirectoryMonitor_new (path self) name);
  match directory_monitors self !! name with
  | None =>
      update_this (set_directory_monitors (<[name := monitor]> (directory_monitors self)))
  | Some _ =>
      (* emplace keeps the old entry and drops the new monitor *)
      in_world (DirectoryMonitor_delete monitor)
  end.

Definition createDirectoryMonitors : M Obj unit :=
  self ← get_this;
  in_world (in_fs (File_createDirectory (path self)));;
  entries ← in_world (in_fs (DirectoryIterator (path self)));
  for_each entries (λ it_name,
    is_dir ← in_world (in_fs (File_isDirectory (path self ++ [it_name])));
    if is_dir : bool then createDirectoryMonitor it_name else mret tt).

Definition requireDirectoryMonitor (name : string) : M Obj unit :=
  self ← get_this;
  if decide (directory_monitors self !! name = None)
  then createDirectoryMonitor name
  else mret tt.

(** Runs a constructor body on the freshly initialised object. *)
Definition run_constructor_body (self : t) (body : M Obj unit) : M World t :=
  λ w, match body {| this := self; world := w |} with
       | Ok (_, o) => Ok (this o, world o)
       | Throw e => Throw e
       end.

(** The member initialisers of the constructor. *)
Definition member_initializers
    (name_ : string) (columns_ : NamesAndTypesList)
    (remote_database_ remote_table_ : string)
    (cluster_ : Cluster.t) (context_ : Context.t)
    (sharding_key_ : ASTPtr) (sharding_key_column_name_ : string) (data_path_ : Path) : t :=
  {| name := name_;
     columns := columns_;
     remote_database := remote_database_;
     remote_table := remote_table_;
     context := context_;
     cluster := cluster_;
     sharding_key_expr :=
       match sharding_key_ with
       | Some _ => Some {| analyzed_ast := sharding_key_;
                           analyzed_columns := columns_;
                           project_result := false |}
       | None => None
       end;
     sharding_key_column_name := sharding_key_column_name_;
     write_enabled :=
       (size_t_add (Cluster.getLocalNodesNum cluster_) (Cluster.pools_size cluster_) <? 2)%N
       || bool_decide (sharding_key_ ≠ nullptr);
     path := data_path_ ++ [escapeForFileName name_];
     external_tables := ∅;
     directory_monitors := ∅ |}.

(** The constructor: member initialisers, then [createDirectoryMonitors]. *)
Definition StorageDistributed
    (name_ : string) (columns_ : NamesAndTypesList)
    (remote_database_ remote_table_ : string)
    (cluster_ : Cluster.t) (context_ : Context.t)
    (sharding_key_ : ASTPtr) (data_path_ : Path) : M World t :=
  sharding_key_column_name_ ←
    match sharding_key_ with
    | Some _ => key ← in_heap (deref sharding_key_); mret (getColumnName key)
    | None => mret String.EmptyString
    end;
  run_constructor_body
    (member_initializers name_ columns_ remote_database_ remote_table_ cluster_ context_
       sharding_key_ sharding_key_column_name_ data_path_)
    createDirectoryMonitors.

Fixpoint push_local_streams (n : nat) (stream : BlockInputStream)
    (res : list BlockInputStream) : list BlockInputStream :=
  match n with
  | O => res
  | S n' => push_local_streams n' stream (res ++ [stream])
  end.

(** [read]; the out-parameter [processed_stage] is returned next to the
    streams. *)
Definition read (column_names : list string) (query : ASTPtr)
    (settings : Settings.t) (max_block_size : N) (threads : N)
  : M Obj (list BlockInputStream * QueryProcessingStage) :=
  self ← get_this;
  let new_settings :=
    Settings.set_queue_max_wait_ms
      (Cluster_saturate (Settings.queue_max_wait_ms settings)
                        (Settings.limits_max_execution_time settings))
      settings in
  let result_size :=
    size_t_add (Cluster.pools_size (cluster self))
               (Cluster.getLocalNodesNum (cluster self)) in
  let processed_stage :=
    if (result_size =? 1)%N then Complete else WithMergeableState in
  modified_query_ast ←
    in_world (in_heap (rewriteQuery ASTSelectQuery.t query
                         (remote_database self) (remote_table self)));
  modified_query ←
    in_world (in_heap (node ← deref modified_query_ast; mret (queryToString node)));
  (* loop over the shards *)
  let res :=
    map (λ conn_pool,
           RemoteBlockInputStream conn_pool modified_query new_settings
             (external_tables self) processed_stage)
        (Cluster.pools (cluster self)) in
  (* add the queries to the local server *)
  let res :=
    if (0 <? Cluster.getLocalNodesNum (cluster self))%N then
      let new_context := Context.setSettings new_settings (context self) in
      let new_context :=
        foldl (λ ctx it,
                 match Context.tryGetExternalTable ctx it.1 with
                 | None => Context.addExternalTable it.1 it.2 ctx
                 | Some _ => ctx
                 end)
              new_context (map_to_list (external_tables self)) in
      push_local_streams
        (N.to_nat (Cluster.getLocalNodesNum (cluster self)))
        (InterpreterSelectQuery_execute modified_query_ast new_context processed_stage)
        res
    else res in
  update_this (set_external_tables ∅);;
  mret (res, processed_stage).

(** What [read] computes, written out: the settings it hands on, the stage,
    the context of the local executions and the streams. *)
Definition read_settings (settings : Settings.t) : Settings.t :=
  Settings.set_queue_max_wait_ms
    (Cluster_saturate (Settings.queue_max_wait_ms settings)
                      (Settings.limits_max_execution_time settings))
    settings.

Definition read_stage (self : t) : QueryProcessingStage :=
  if (size_t_add (Cluster.pools_size (cluster self))
                 (Cluster.getLocalNodesNum (cluster self)) =? 1)%N
  then Complete else WithMergeableState.

Definition read_local_context (self : t) (settings : Settings.t) : Context.t :=
  foldl (λ ctx it,
           match Context.tryGetExternalTable ctx it.1 with
           | None => Context.addExternalTable it.1 it.2 ctx
           | Some _ => ctx
           end)
        (Context.setSettings (read_settings settings) (context self))
        (map_to_list (external_tables self)).

Definition read_remote_streams (self : t) (settings : Settings.t) (select : IAST)
  : list BlockInputStream :=
  map (λ conn_pool,
         RemoteBlockInputStream conn_pool (queryToString select) (read_settings settings)
           (external_tables self) (read_stage self))
      (Cluster.pools (cluster self)).

Definition read_local_streams (self : t) (settings : Settings.t) (query_ast : ASTPtr)
  : list BlockInputStream :=
  replicate (N.to_nat (Cluster.getLocalNodesNum (cluster self)))
    (InterpreterSelectQuery_execute query_ast (read_local_context self settings)
       (read_stage self)).

Definition write (query : ASTPtr) : M Obj DistributedBlockOutputStream :=
  self ← get_this;
  if negb (write_enabled self) then throw STORAGE_REQUIRES_PARAMETER
  else
    query_ast ← in_world (in_heap (rewriteQuery ASTInsertQuery.t query
                                     (remote_database self) (remote_table self)));
    mret {| sink_storage := name self; sink_query_ast := query_ast |}.

(** [directory_monitors.clear()] destroys every monitor it held. *)
Definition shutdown : M Obj unit :=
  self ← get_this;
  in_world (for_each (map snd (map_to_list (directory_monitors self)))
                     DirectoryMonitor_delete);;
  update_this (set_directory_monitors ∅).

Definition getColumn (self : t) (column_name : string) : Result NameAndTypePair :=
  match VirtualColumnFactory_tryGetType column_name with
  | Some type => Ok (column_name, type)
  | None => getRealColumn (columns self) column_name
  end.

Definition hasColumn (self : t) (column_name : string) : bool :=
  VirtualColumnFactory_hasColumn column_name || hasRealColumn (columns self) column_name.

End Methods.
End StorageDistributed.

(** ** A worked configuration

    One table over two remote shards and one local replica, its spool
    directory holding two shard directories and a stray file. *)

Module Example.

Definition collaborators : Collaborators :=
  {| escapeForFileName := λ s, s;
     queryToString := λ _, "SELECT count() FROM shard_db.hits_local";
     getColumnName := λ _, "UserID";
     Cluster_saturate := λ v limit, if (limit =? 0)%Z then v else Z.min v limit;
     VirtualColumnFactory_tryGetType :=
       λ column, if bool_decide (column = "_table") then Some "String" else None;
     VirtualColumnFactory_hasColumn := λ column, bool_decide (column = "_table");
     getRealColumn :=
       λ columns column,
         match list_find (λ c, c.1 = column) columns with
         | Some (_, c) => Ok c
         | None => Throw NO_SUCH_COLUMN_IN_TABLE
         end;
     hasRealColumn :=
       λ columns column, bool_decide (column ∈ columns.*1) |}.

Definition nested_select : IAST :=
  SelectQuery None (Some (Identifier "staging" Table)) [OtherNode "SELECT *" []].
Definition insert_query : IAST :=
  InsertQuery "default" "hits_all" (Some nested_select) [OtherNode "(UserID, URL)" []].
Definition select_query : IAST :=
  SelectQuery (Some (Identifier "default" Database)) (Some (Identifier "hits_all" Table))
              [OtherNode "count()" []].

Definition settings : Settings.t := Settings.Build 5000 0.
Definition context : Context.t := Context.Build settings {[ "_data" := 40 ]}.

Definition two_remote_one_local : Cluster.t := Cluster.Build [7; 8] 1.
Definition two_remote : Cluster.t := Cluster.Build [7; 8] 0.
Definition one_local : Cluster.t := Cluster.Build [] 1.

Definition spool : Path := ["data"; "default"; "hits_all"].

Definition disk : FileSystem :=
  {[ ["data"; "default"] := Directory;
     spool := Directory;
     spool ++ ["shard1"] := Directory;
     spool ++ ["shard2"] := Directory;
     spool ++ ["increment.txt"] := RegularFile ]}.

Definition sharding_key : IAST := OtherNode "intHash32(UserID)" [].

Definition world : World :=
  {| heap := [insert_query; select_query; sharding_key]; fs := disk; tasks := [] |}.

Definition table (cluster : Cluster.t) (write_enabled : bool) : StorageDistributed.t :=
  {| StorageDistributed.name := "hits_all";
     StorageDistributed.columns := [("UserID", "UInt64"); ("_table", "UInt8")];
     StorageDistributed.remote_database := "shard_db";
     StorageDistributed.remote_table := "hits_local";
     StorageDistributed.context := context;
     StorageDistributed.cluster := cluster;
     StorageDistributed.sharding_key_expr := None;
     StorageDistributed.sharding_key_column_name := "";
     StorageDistributed.write_enabled := write_enabled;
     StorageDistributed.path := spool;
     StorageDistributed.external_tables := {[ "_data" := 41; "_tmp" := 42 ]};
     StorageDistributed.directory_monitors := ∅ |}.

(** The same table once the monitor of "shard1" is running. *)
Definition shard1_monitor : DirectoryMonitor.t :=
  DirectoryMonitor.Build 0 "shard1" (spool ++ ["shard1"]).

Definition monitored_table : StorageDistributed.t :=
  StorageDistributed.set_directory_monitors {[ "shard1" := shard1_monitor ]}
    (table two_remote_one_local true).

Definition monitored_world : World :=
  {| heap := heap world; fs := disk; tasks := [TaskStarted 0 "shard1"] |}.

Definition monitored : StorageDistributed.Obj :=
  {| StorageDistributed.this := monitored_table;
     StorageDistributed.world := monitored_world |}.

End Example.

(** ** The table after a [read], however the call ends

    [read] assigns one member of the table, [external_tables], and does so in
    its last statement. A call that leaves earlier, by an exception, has
    assigned nothing: the table is then as the call found it. *)
Definition table_after_read `{Collaborators}
    (column_names : list string) (query : ASTPtr) (settings : Settings.t)
    (max_block_size threads : N) (o : StorageDistributed.Obj) : StorageDistributed.t :=
  match StorageDistributed.read column_names query settings max_block_size threads o with
  | Ok (_, o') => StorageDistributed.this o'
  | Throw _ => StorageDistributed.this o
  end.

(** ** Running background tasks

    What the task log says about the monitors of a table. *)

(** Task [id] was started and has not been stopped. *)
Definition task_running (log : list TaskEvent) (id : nat) : Prop :=
  (∃ name, TaskStarted id name ∈ log) ∧ TaskStopped id ∉ log.

(** A log as [DirectoryMonitor_new] and [DirectoryMonitor_delete] write it:
    a start carries its own position, a stop names an earlier task. *)
Definition log_ok (log : list TaskEvent) : Prop :=
  ∀ i event, log !! i = Some event →
    match event with
    | TaskStarted id _ => id = i
    | TaskStopped id => id < i
    end.

(** The table's monitors and the running tasks are the same things: a
    monitor is filed under its own name, watches that name's directory below
    the table's path and owns a running task, and no task runs without a
    monitor in the mapping. *)
Definition monitors_ok (o : StorageDistributed.Obj) : Prop :=
  let self := StorageDistributed.this o in
  let log := tasks (StorageDistributed.world o) in
  log_ok log
  ∧ (∀ name monitor,
       StorageDistributed.directory_monitors self !! name = Some monitor →
       monitor = DirectoryMonitor.Build (DirectoryMonitor.id monitor) name
                   (StorageDistributed.path self ++ [name])
       ∧ log !! DirectoryMonitor.id monitor
         = Some (TaskStarted (DirectoryMonitor.id monitor) name)
       ∧ TaskStopped (DirectoryMonitor.id monitor) ∉ log)
  ∧ (∀ id, task_running log id →
       ∃ name monitor,
         StorageDistributed.directory_monitors self !! name = Some monitor
         ∧ DirectoryMonitor.id monitor = id).

(** * Properties *)

(** ** Running monadic code *)

Lemma bind_Ok {S A B} (c : M S A) (k : A → M S B) s a s' :
  c s = Ok (a, s') → (c ≫= k) s = k a s'.
Proof. intros Hc. unfold mbind, M_bind, bind. by rewrite Hc. Qed.

(** ** Query retargeting *)

Section Retargeting.
Context {ASTType : Type} `{Rewritable ASTType}.

Lemma clone_run (h : Heap) a node :
  h !! a = Some node → clone (Some a) h = Ok (Some (length h), h ++ [node]).
Proof.
  intros Ha. unfold clone. erewrite bind_Ok; [reflexivity|].
  unfold deref. by rewrite Ha.
Qed.

(** On an object of the right class the retargeted copy is appended to the
    store and nothing else is written. *)
Lemma rewriteQuery_run (h : Heap) a node (obj : ASTType) database table :
  h !! a = Some node →
  downcast node = Some obj →
  rewriteQuery ASTType (Some a) database table h
  = Ok (Some (length h), h ++ [upcast (rewriteImpl obj database table)]).
Proof.
  intros Ha Hcast. unfold rewriteQuery.
  erewrite bind_Ok by (by apply clone_run).
  assert (Hnew : (h ++ [node]) !! length h = Some node)
    by (by rewrite list_lookup_middle).
  erewrite bind_Ok; last first.
  { unfold typeid_cast. erewrite bind_Ok by (unfold deref; cbn beta iota; by rewrite Hnew).
    rewrite Hcast. reflexivity. }
  simpl. unfold mbind, M_bind, bind, assign, modify, mret, M_ret, ret.
  do 2 f_equal.
  replace (length h) with (length h + 0) at 1 by lia.
  by rewrite insert_app_r.
Qed.

(** A null or dangling pointer, or an object of another class, stops the
    call; these are the only ways it can stop. *)
Lemma rewriteQuery_Throw (h : Heap) query database table e :
  rewriteQuery ASTType query database table h = Throw e →
  e = NULL_DEREFERENCE ∨ e = BAD_CAST.
Proof.
  unfold rewriteQuery, clone, typeid_cast, deref, new, assign, modify.
  unfold mbind, M_bind, bind, mret, M_ret, ret, throw.
  destruct query as [a|]; [|naive_solver].
  destruct (h !! a) as [node|]; [|naive_solver].
  rewrite list_lookup_middle by done.
  destruct (downcast node); naive_solver.
Qed.

Lemma rewriteQuery_bad_cast (h : Heap) a node database table :
  h !! a = Some node →
  downcast node = None →
  rewriteQuery ASTType (Some a) database table h = Throw BAD_CAST.
Proof.
  intros Ha Hcast.
  unfold rewriteQuery, clone, typeid_cast, deref, new, assign, modify.
  unfold mbind, M_bind, bind, mret, M_ret, ret, throw.
  rewrite Ha. rewrite list_lookup_middle by done. by rewrite Hcast.
Qed.
End Retargeting.

Lemma rewriteQuery_Ok_inv {ASTType : Type} `{Rewritable ASTType}
    (h : Heap) query database table p h' :
  rewriteQuery ASTType query database table h = Ok (p, h') →
  ∃ a node obj,
    query = Some a ∧ h !! a = Some node ∧ downcast node = Some obj
    ∧ p = Some (length h)
    ∧ h' = h ++ [upcast (rewriteImpl obj database table)].
Proof.
  intros Hrun. destruct query as [a|]; [|done].
  destruct (h !! a) as [node|] eqn:Ha.
  - destruct (downcast node) as [obj|] eqn:Hcast.
    + rewrite (rewriteQuery_run h a node obj database table Ha Hcast) in Hrun.
      injection Hrun as <- <-. by exists a, node, obj.
    + by rewrite (rewriteQuery_bad_cast h a node database table Ha Hcast) in Hrun.
  - unfold rewriteQuery, clone, deref in Hrun.
    unfold mbind, M_bind, bind in Hrun. by rewrite Ha in Hrun.
Qed.

(** C3. Retargeting never mutates its input. For a select and for an insert
    query alike, [rewriteQuery] returns a pointer to a new object (one that
    did not exist before and is not the input), every object that existed
    before the call, the input among them, is unchanged after it, and the new
    object is the input with the database and table replaced (and, for an
    insert, the nested select dropped). *)
Theorem rewriteQuery_does_not_mutate_input :
  (∀ (h : Heap) a database table children new_database new_table,
     h !! a = Some (SelectQuery database table children) →
     ∃ a' h',
       rewriteQuery ASTSelectQuery.t (Some a) new_database new_table h = Ok (Some a', h')
       ∧ a' ≠ a ∧ h !! a' = None
       ∧ h' !! a = Some (SelectQuery database table children)
       ∧ (∀ b node, h !! b = Some node → h' !! b = Some node)
       ∧ length h' = S (length h)
       ∧ h' !! a' = Some (SelectQuery (Some (Identifier new_database Database))
                                      (Some (Identifier new_table Table)) children))
  ∧
  (∀ (h : Heap) a database table select children new_database new_table,
     h !! a = Some (InsertQuery database table select children) →
     ∃ a' h',
       rewriteQuery ASTInsertQuery.t (Some a) new_database new_table h = Ok (Some a', h')
       ∧ a' ≠ a ∧ h !! a' = None
       ∧ h' !! a = Some (InsertQuery database table select children)
       ∧ (∀ b node, h !! b = Some node → h' !! b = Some node)
       ∧ length h' = S (length h)
       ∧ h' !! a' = Some (InsertQuery new_database new_table None children)).
Proof.
  split.
  - intros h a d t c nd nt Ha.
    eexists (length h), _. split.
    { eapply rewriteQuery_run; [exact Ha | reflexivity]. }
    pose proof (lookup_lt_Some _ _ _ Ha) as Hlt.
    repeat split.
    + lia.
    + by apply lookup_ge_None_2.
    + by rewrite lookup_app_l.
    + intros b node Hb. rewrite lookup_app_l; [done|]. by eapply lookup_lt_Some.
    + rewrite length_app. simpl. lia.
    + by rewrite list_lookup_middle.
  - intros h a d t s c nd nt Ha.
    eexists (length h), _. split.
    { eapply rewriteQuery_run; [exact Ha | reflexivity]. }
    pose proof (lookup_lt_Some _ _ _ Ha) as Hlt.
    repeat split.
    + lia.
    + by apply lookup_ge_None_2.
    + by rewrite lookup_app_l.
    + intros b node Hb. rewrite lookup_app_l; [done|]. by eapply lookup_lt_Some.
    + rewrite length_app. simpl. lia.
    + by rewrite list_lookup_middle.
Qed.

Lemma rewriteQuery_does_not_mutate_input_witness :
  let select := SelectQuery None (Some (Identifier "hits" Table)) [OtherNode "SELECT *" []] in
  let insert := InsertQuery "default" "hits" (Some select) [] in
  (∃ a' h',
     rewriteQuery ASTSelectQuery.t (Some 1) "shard_db" "hits_local" [insert; select]
       = Ok (Some a', h')
     ∧ a' ≠ 1 ∧ [insert; select] !! a' = None
     ∧ h' !! 1 = Some select
     ∧ (∀ b node, [insert; select] !! b = Some node → h' !! b = Some node)
     ∧ length h' = 3
     ∧ h' !! a' = Some (SelectQuery (Some (Identifier "shard_db" Database))
                                    (Some (Identifier "hits_local" Table))
                                    [OtherNode "SELECT *" []]))
  ∧
  (∃ a' h',
     rewriteQuery ASTInsertQuery.t (Some 0) "shard_db" "hits_local" [insert; select]
       = Ok (Some a', h')
     ∧ a' ≠ 0 ∧ [insert; select] !! a' = None
     ∧ h' !! 0 = Some insert
     ∧ (∀ b node, [insert; select] !! b = Some node → h' !! b = Some node)
     ∧ length h' = 3
     ∧ h' !! a' = Some (InsertQuery "shard_db" "hits_local" None [])).
Proof.
  intros select insert. split.
  - apply (proj1 rewriteQuery_does_not_mutate_input [insert; select] 1). reflexivity.
  - apply (proj2 rewriteQuery_does_not_mutate_input [insert; select] 0). reflexivity.
Defined.

(** C4. Retargeting an insert query overwrites its database and table names
    with the given pair and sets its nested select to null, whatever the
    select was: the query that comes out is never an INSERT ... SELECT. The
    first part is [rewriteImpl] on the insert class, the second is the object
    [rewriteQuery] returns. *)
Theorem rewrite_insert_drops_nested_select :
  (∀ (query : ASTInsertQuery.t) remote_database remote_table,
     let query' := rewriteImpl query remote_database remote_table in
     ASTInsertQuery.database query' = remote_database
     ∧ ASTInsertQuery.table query' = remote_table
     ∧ ASTInsertQuery.select query' = None
     ∧ ASTInsertQuery.children query' = ASTInsertQuery.children query)
  ∧
  (∀ (h : Heap) a node (query : ASTInsertQuery.t) remote_database remote_table,
     h !! a = Some node →
     downcast node = Some query →
     ∃ a' h' query',
       rewriteQuery ASTInsertQuery.t (Some a) remote_database remote_table h
         = Ok (Some a', h')
       ∧ h' !! a' = Some (upcast query')
       ∧ ASTInsertQuery.database query' = remote_database
       ∧ ASTInsertQuery.table query' = remote_table
       ∧ ASTInsertQuery.select query' = None).
Proof.
  split.
  - intros query db tb. by cbn.
  - intros h a node query db tb Ha Hcast.
    exists (length h), (h ++ [upcast (rewriteImpl query db tb)]), (rewriteImpl query db tb).
    split; [by apply rewriteQuery_run with node|].
    split; [by rewrite list_lookup_middle|]. by cbn.
Qed.

Lemma rewrite_insert_drops_nested_select_witness :
  let nested := SelectQuery None (Some (Identifier "staging" Table)) [] in
  let insert := InsertQuery "default" "hits" (Some nested) [OtherNode "(a, b)" []] in
  ∃ a' h' query',
    rewriteQuery ASTInsertQuery.t (Some 0) "shard_db" "hits_local" [insert] = Ok (Some a', h')
    ∧ h' !! a' = Some (upcast query')
    ∧ ASTInsertQuery.database query' = "shard_db"
    ∧ ASTInsertQuery.table query' = "hits_local"
    ∧ ASTInsertQuery.select query' = None.
Proof.
  intros nested insert.
  apply (proj2 rewrite_insert_drops_nested_select [insert] 0 insert
           (ASTInsertQuery.Build "default" "hits" (Some nested) [OtherNode "(a, b)" []]));
    reflexivity.
Defined.

(** ** Running [read] and [write] *)

Section ReadWrite.
Import StorageDistributed.
Context `{Collaborators}.

Lemma push_local_streams_replicate n stream res :
  push_local_streams n stream res = res ++ replicate n stream.
Proof.
  revert res. induction n as [|n IH]; intros res; simpl.
  - by rewrite app_nil_r.
  - rewrite IH, <- app_assoc. reflexivity.
Qed.

Lemma read_run column_names a settings max_block_size threads self w database table children :
  heap w !! a = Some (SelectQuery database table children) →
  let select' := SelectQuery (Some (Identifier (remote_database self) Database))
                             (Some (Identifier (remote_table self) Table)) children in
  read column_names (Some a) settings max_block_size threads {| this := self; world := w |}
  = Ok (read_remote_streams self settings select'
          ++ read_local_streams self settings (Some (length (heap w))),
        read_stage self,
        {| this := set_external_tables ∅ self;
           world := {| heap := heap w ++ [select']; fs := fs w; tasks := tasks w |} |}).
Proof.
  intros Ha select'.
  unfold read, get_this, in_world, in_heap, zoom, update_this, modify.
  unfold mbind, M_bind, bind, mret, M_ret, ret. cbn [this world heap fs tasks].
  erewrite rewriteQuery_run by (first [exact Ha | reflexivity]).
  cbn [this world heap fs tasks upcast rewritable_select rewriteImpl ASTSelectQuery.children
       ASTSelectQuery.database ASTSelectQuery.table].
  unfold deref. rewrite list_lookup_middle by done.
  cbn [this world heap fs tasks].
  rewrite push_local_streams_replicate.
  destruct (0 <? Cluster.getLocalNodesNum (cluster self))%N eqn:Hlocal.
  - reflexivity.
  - apply N.ltb_ge in Hlocal.
    unfold read_local_streams.
    replace (N.to_nat (Cluster.getLocalNodesNum (cluster self))) with 0%nat by lia.
    cbn [replicate]. by rewrite app_nil_r.
Qed.
Lemma write_run a self w database table select children :
  write_enabled self = true →
  heap w !! a = Some (InsertQuery database table select children) →
  write (Some a) {| this := self; world := w |}
  = Ok ({| sink_storage := name self; sink_query_ast := Some (length (heap w)) |},
        {| this := self;
           world := {| heap := heap w ++ [InsertQuery (remote_database self)
                                            (remote_table self) None children];
                       fs := fs w; tasks := tasks w |} |}).
Proof.
  intros Henabled Ha.
  unfold write, get_this, in_world, in_heap, zoom.
  unfold mbind, M_bind, bind, mret, M_ret, ret. cbn [this world heap fs tasks].
  rewrite Henabled. cbn [negb].
  erewrite rewriteQuery_run by (first [exact Ha | reflexivity]).
  reflexivity.
Qed.

Lemma write_disabled query o :
  write_enabled (this o) = false →
  write query o = Throw STORAGE_REQUIRES_PARAMETER.
Proof.
  intros Hdisabled. unfold write, get_this.
  unfold mbind, M_bind, bind. by rewrite Hdisabled.
Qed.

Lemma write_Throw query o e :
  write query o = Throw e →
  if write_enabled (this o) then e = NULL_DEREFERENCE ∨ e = BAD_CAST
  else e = STORAGE_REQUIRES_PARAMETER.
Proof.
  unfold write, get_this, in_world, in_heap, zoom, throw.
  unfold mbind, M_bind, bind, mret, M_ret, ret.
  destruct (write_enabled (this o)); cbn [negb].
  - destruct (rewriteQuery _ _ _ _ _) as [[q h']|e'] eqn:Hrw; [done|].
    intros [= <-]. by eapply rewriteQuery_Throw.
  - by intros [= <-].
Qed.

(** The external tables a local execution sees: those of the table's context,
    then every registered one whose name the context does not already use. *)
Lemma foldl_external_tables (l : list (string * StoragePtr)) (ctx : Context.t) :
  Context.external_tables
    (foldl (λ ctx it,
              match Context.tryGetExternalTable ctx it.1 with
              | None => Context.addExternalTable it.1 it.2 ctx
              | Some _ => ctx
              end) ctx l)
  = Context.external_tables ctx ∪ list_to_map l.
Proof.
  revert ctx. induction l as [|[k v] l IH]; intros ctx.
  - cbn. by rewrite (right_id_L ∅ (∪)).
  - cbn [foldl list_to_map foldr fst snd uncurry]. rewrite IH.
    unfold Context.tryGetExternalTable.
    destruct (Context.external_tables ctx !! k) as [st|] eqn:Hk;
      cbn [Context.addExternalTable Context.external_tables];
      apply map_eq; intros i; rewrite !lookup_union;
      destruct (decide (i = k)) as [->|Hne].
    + rewrite Hk, lookup_insert_eq. by destruct (list_to_map l !! k).
    + by rewrite lookup_insert_ne.
    + rewrite Hk, !lookup_insert_eq. by destruct (list_to_map l !! k).
    + by rewrite !lookup_insert_ne.
Qed.

Lemma read_local_context_tables self settings :
  Context.external_tables (read_local_context self settings)
  = Context.external_tables (context self) ∪ external_tables self.
Proof.
  unfold read_local_context. rewrite foldl_external_tables.
  by rewrite list_to_map_to_list.
Qed.

End ReadWrite.

(** ** The read fan-out *)

(** C2. For every cluster, [read] sets [processed_stage] to [Complete]
    exactly when the target count (remote pools plus local replicas) is 1,
    and to [WithMergeableState] whenever it is greater than 1. The query is a
    select query and the two counts of the cluster add up within [size_t]. *)
Theorem read_processed_stage `{Collaborators}
    column_names query settings max_block_size threads
    (self : StorageDistributed.t) (w : World) database table children :
  Cluster.fits (StorageDistributed.cluster self) →
  heap w !! query = Some (SelectQuery database table children) →
  let target_count :=
    (Cluster.pools_size (StorageDistributed.cluster self)
     + Cluster.getLocalNodesNum (StorageDistributed.cluster self))%N in
  ∃ res processed_stage o',
    StorageDistributed.read column_names (Some query) settings max_block_size threads
      {| StorageDistributed.this := self; StorageDistributed.world := w |}
    = Ok (res, processed_stage, o')
    ∧ (processed_stage = Complete ↔ target_count = 1%N)
    ∧ ((1 < target_count)%N → processed_stage = WithMergeableState).
Proof.
  intros Hfits Hquery target_count.
  eexists _, _, _. split; [by eapply read_run|].
  unfold StorageDistributed.read_stage, size_t_add.
  rewrite N.mod_small by exact Hfits. fold target_count.
  destruct (N.eqb_spec target_count 1) as [Heq|Hne].
  - split; [done|]. intros Hgt. rewrite Heq in Hgt. lia.
  - split; [|done]. split; [done|]. intros Heq. by destruct Hne.
Qed.

Lemma read_processed_stage_witness :
  (∃ res processed_stage o',
     StorageDistributed.read (H := Example.collaborators)
       ["UserID"] (Some 1) Example.settings 65536%N 4%N
       {| StorageDistributed.this := Example.table Example.one_local true;
          StorageDistributed.world := Example.world |}
     = Ok (res, processed_stage, o')
     ∧ (processed_stage = Complete ↔ (0 + 1)%N = 1%N)
     ∧ ((1 < 0 + 1)%N → processed_stage = WithMergeableState))
  ∧
  (∃ res processed_stage o',
     StorageDistributed.read (H := Example.collaborators)
       ["UserID"] (Some 1) Example.settings 65536%N 4%N
       {| StorageDistributed.this := Example.table Example.two_remote_one_local true;
          StorageDistributed.world := Example.world |}
     = Ok (res, processed_stage, o')
     ∧ (processed_stage = Complete ↔ (2 + 1)%N = 1%N)
     ∧ ((1 < 2 + 1)%N → processed_stage = WithMergeableState)).
Proof.
  split.
  - apply (read_processed_stage (H := Example.collaborators) ["UserID"] 1 Example.settings
             65536%N 4%N (Example.table Example.one_local true) Example.world
             (Some (Identifier "default" Database)) (Some (Identifier "hits_all" Table))
             [OtherNode "count()" []]);
      [by vm_compute | reflexivity].
  - apply (read_processed_stage (H := Example.collaborators) ["UserID"] 1 Example.settings
             65536%N 4%N (Example.table Example.two_remote_one_local true) Example.world
             (Some (Identifier "default" Database)) (Some (Identifier "hits_all" Table))
             [OtherNode "count()" []]);
      [by vm_compute | reflexivity].
Defined.

(** C5. [read] returns exactly (remote pools + local replicas) streams: one
    remote stream per pool, in the cluster's pool order, followed by one local
    stream per local replica. All of them carry the same stage, the remote
    ones the same query text and settings, the local ones the same
    retargeted query and context. *)
Theorem read_streams_in_shard_order `{Collaborators}
    column_names query settings max_block_size threads
    (self : StorageDistributed.t) (w : World) database table children :
  heap w !! query = Some (SelectQuery database table children) →
  let pools := Cluster.pools (StorageDistributed.cluster self) in
  let local_replicas := N.to_nat (Cluster.getLocalNodesNum (StorageDistributed.cluster self)) in
  ∃ res processed_stage o' modified_query new_settings tables modified_query_ast new_context,
    StorageDistributed.read column_names (Some query) settings max_block_size threads
      {| StorageDistributed.this := self; StorageDistributed.world := w |}
    = Ok (res, processed_stage, o')
    ∧ res = map (λ conn_pool, RemoteBlockInputStream conn_pool modified_query new_settings
                                tables processed_stage) pools
            ++ replicate local_replicas
                 (InterpreterSelectQuery_execute modified_query_ast new_context processed_stage)
    ∧ length res = length pools + local_replicas.
Proof.
  intros Hquery pools local_replicas.
  eexists _, _, _, _, _, _, _, _. split; [by eapply read_run|].
  split; [reflexivity|].
  unfold StorageDistributed.read_remote_streams, StorageDistributed.read_local_streams.
  by rewrite length_app, length_map, length_replicate.
Qed.

Lemma read_streams_in_shard_order_witness :
  ∃ res processed_stage o' modified_query new_settings tables modified_query_ast new_context,
    StorageDistributed.read (H := Example.collaborators)
      ["UserID"] (Some 1) Example.settings 65536%N 4%N
      {| StorageDistributed.this := Example.table Example.two_remote_one_local true;
         StorageDistributed.world := Example.world |}
    = Ok (res, processed_stage, o')
    ∧ res = map (λ conn_pool, RemoteBlockInputStream conn_pool modified_query new_settings
                                tables processed_stage) [7; 8]
            ++ replicate 1
                 (InterpreterSelectQuery_execute modified_query_ast new_context processed_stage)
    ∧ length res = 2 + 1.
Proof.
  apply (read_streams_in_shard_order (H := Example.collaborators) ["UserID"] 1
           Example.settings 65536%N 4%N (Example.table Example.two_remote_one_local true)
           Example.world (Some (Identifier "default" Database))
           (Some (Identifier "hits_all" Table)) [OtherNode "count()" []]).
  reflexivity.
Defined.

Lemma read_Ok_cleared `{Collaborators}
    column_names query settings max_block_size threads o res processed_stage o' :
  StorageDistributed.read column_names query settings max_block_size threads o
    = Ok (res, processed_stage, o') →
  StorageDistributed.this o'
    = StorageDistributed.set_external_tables ∅ (StorageDistributed.this o).
Proof.
  unfold StorageDistributed.read, StorageDistributed.get_this, StorageDistributed.in_world,
    in_heap, zoom, StorageDistributed.update_this, modify.
  unfold mbind, M_bind, bind, mret, M_ret, ret.
  destruct (rewriteQuery _ _ _ _ _) as [[p h']|e]; [|done].
  cbn [StorageDistributed.world heap fs tasks StorageDistributed.this].
  destruct (deref p h') as [[node h'']|e]; [|done].
  cbn [StorageDistributed.world heap fs tasks StorageDistributed.this].
  by intros [= _ _ <-].
Qed.

Lemma read_Throw_of_rewrite `{Collaborators}
    column_names query settings max_block_size threads o e :
  rewriteQuery ASTSelectQuery.t query
    (StorageDistributed.remote_database (StorageDistributed.this o))
    (StorageDistributed.remote_table (StorageDistributed.this o))
    (heap (StorageDistributed.world o)) = Throw e →
  StorageDistributed.read column_names query settings max_block_size threads o = Throw e.
Proof.
  intros Hrw.
  unfold StorageDistributed.read, StorageDistributed.get_this, StorageDistributed.in_world,
    in_heap, zoom.
  unfold mbind, M_bind, bind. by rewrite Hrw.
Qed.

Lemma read_Ok_inv `{Collaborators}
    column_names query settings max_block_size threads o r :
  StorageDistributed.read column_names query settings max_block_size threads o = Ok r →
  ∃ a d t c, query = Some a
             ∧ heap (StorageDistributed.world o) !! a = Some (SelectQuery d t c).
Proof.
  unfold StorageDistributed.read, StorageDistributed.get_this, StorageDistributed.in_world,
    in_heap, zoom.
  unfold mbind, M_bind, bind.
  destruct (rewriteQuery _ _ _ _ _) as [[p h']|e] eqn:Hrw; [|done].
  intros _.
  apply rewriteQuery_Ok_inv in Hrw as (a & node & obj & -> & Ha & Hcast & _).
  destruct node; try done. by eexists _, _, _, _.
Qed.




(** A run of the example: two remote streams, then the local one, whose
    context keeps its own "_data" and gains "_tmp". *)
Example read_example :
  let text := "SELECT count() FROM shard_db.hits_local" in
  let tables : Tables := {[ "_data" := 41; "_tmp" := 42 ]} in
  let retargeted :=
    SelectQuery (Some (Identifier "shard_db" Database))
                (Some (Identifier "hits_local" Table)) [OtherNode "count()" []] in
  ∃ new_context o',
    StorageDistributed.read (H := Example.collaborators)
      ["UserID"] (Some 1) Example.settings 65536%N 4%N
      {| StorageDistributed.this := Example.table Example.two_remote_one_local true;
         StorageDistributed.world := Example.world |}
    = Ok ([ RemoteBlockInputStream 7 text Example.settings tables WithMergeableState;
            RemoteBlockInputStream 8 text Example.settings tables WithMergeableState;
            InterpreterSelectQuery_execute (Some 3) new_context WithMergeableState ],
          WithMergeableState, o')
    ∧ Context.tryGetExternalTable new_context "_data" = Some 40
    ∧ Context.tryGetExternalTable new_context "_tmp" = Some 42
    ∧ StorageDistributed.external_tables (StorageDistributed.this o') = ∅
    ∧ heap (StorageDistributed.world o') = heap Example.world ++ [retargeted].
Proof.
  intros text tables retargeted. eexists _, _. split.
  - erewrite read_run by reflexivity. reflexivity.
  - repeat split; vm_compute; reflexivity.
Qed.

(** ** Directory monitors *)

Section Monitors.
Import StorageDistributed.
Context `{Collaborators}.

Ltac run_method :=
  unfold get_this, in_world, in_fs, in_heap, zoom, update_this, modify, log_task, get;
  unfold mbind, M_bind, bind, mret, M_ret, ret;
  cbn [this world heap fs tasks].

Lemma createDirectoryMonitor_fresh name self w :
  directory_monitors self !! name = None →
  createDirectoryMonitor name {| this := self; world := w |}
  = Ok (tt,
        {| this :=
             set_directory_monitors
               (<[name := DirectoryMonitor.Build (length (tasks w)) name (path self ++ [name])]>
                  (directory_monitors self)) self;
           world := {| heap := heap w; fs := fs w;
                       tasks := tasks w ++ [TaskStarted (length (tasks w)) name] |} |}).
Proof.
  intros Hfree. unfold createDirectoryMonitor, DirectoryMonitor_new. run_method.
  rewrite Hfree. reflexivity.
Qed.

Lemma createDirectoryMonitor_taken name self w monitor :
  directory_monitors self !! name = Some monitor →
  createDirectoryMonitor name {| this := self; world := w |}
  = Ok (tt,
        {| this := self;
           world := {| heap := heap w; fs := fs w;
                       tasks := (tasks w ++ [TaskStarted (length (tasks w)) name])
                                  ++ [TaskStopped (length (tasks w))] |} |}).
Proof.
  intros Htaken.
  unfold createDirectoryMonitor, DirectoryMonitor_new, DirectoryMonitor_delete. run_method.
  rewrite Htaken. reflexivity.
Qed.

Lemma requireDirectoryMonitor_present name self w monitor :
  directory_monitors self !! name = Some monitor →
  requireDirectoryMonitor name {| this := self; world := w |}
  = Ok (tt, {| this := self; world := w |}).
Proof.
  intros Htaken. unfold requireDirectoryMonitor. run_method.
  rewrite decide_False by (by rewrite Htaken). reflexivity.
Qed.

Lemma requireDirectoryMonitor_absent name self w :
  directory_monitors self !! name = None →
  requireDirectoryMonitor name {| this := self; world := w |}
  = createDirectoryMonitor name {| this := self; world := w |}.
Proof.
  intros Hfree. unfold requireDirectoryMonitor. run_method.
  by rewrite decide_True.
Qed.

Lemma for_each_delete (monitors : list DirectoryMonitor.t) w :
  for_each monitors DirectoryMonitor_delete w
  = Ok (tt, {| heap := heap w; fs := fs w;
               tasks := tasks w ++ map (λ m, TaskStopped (DirectoryMonitor.id m)) monitors |}).
Proof.
  revert w. induction monitors as [|m monitors IH]; intros w.
  - cbn. rewrite app_nil_r. by destruct w.
  - cbn [for_each map]. erewrite bind_Ok by reflexivity.
    rewrite IH. cbn [heap fs tasks]. by rewrite <- app_assoc.
Qed.

Lemma shutdown_run self w :
  shutdown {| this := self; world := w |}
  = Ok (tt,
        {| this := set_directory_monitors ∅ self;
           world := {| heap := heap w; fs := fs w;
                       tasks := tasks w
                                ++ map (λ m, TaskStopped (DirectoryMonitor.id m))
                                       (map snd (map_to_list (directory_monitors self))) |} |}).
Proof.
  unfold shutdown. run_method. rewrite for_each_delete. reflexivity.
Qed.

Lemma self_set_directory_monitors self :
  set_directory_monitors (directory_monitors self) self = self.
Proof. by destruct self. Qed.

Lemma isDirectory_run p self w kind :
  fs w !! p = Some kind →
  in_world (in_fs (File_isDirectory p)) {| this := self; world := w |}
  = Ok (bool_decide (kind = Directory),
        {| this := self; world := {| heap := heap w; fs := fs w; tasks := tasks w |} |}).
Proof.
  intros Hkind. unfold in_world, in_fs, zoom, File_isDirectory. cbn [this world fs].
  rewrite Hkind. by destruct kind.
Qed.

(** The scan loop of [createDirectoryMonitors]: over entries that exist, are
    listed once and have no monitor yet, it builds one monitor per directory
    and nothing for the other entries. *)
Lemma scan_loop (entries : list string) self w :
  NoDup entries →
  (∀ entry, entry ∈ entries → is_Some (fs w !! (path self ++ [entry]))) →
  (∀ entry, entry ∈ entries → directory_monitors self !! entry = None) →
  let found := subdirectories (fs w) (path self) entries in
  for_each entries
    (λ it_name,
       is_dir ← in_world (in_fs (File_isDirectory (path self ++ [it_name])));
       if is_dir : bool then createDirectoryMonitor it_name else mret tt)
    {| this := self; world := w |}
  = Ok (tt,
        {| this :=
             set_directory_monitors
               (foldl (λ m kv, <[kv.1 := kv.2]> m) (directory_monitors self)
                      (monitors_for (path self) (length (tasks w)) found)) self;
           world := {| heap := heap w; fs := fs w;
                       tasks := tasks w ++ tasks_for (length (tasks w)) found |} |}).
Proof.
  intros Hnodup. revert self w.
  induction Hnodup as [|entry entries Hnotin Hnodup IH]; intros self w Hexist Hfree found.
  - cbn. rewrite app_nil_r, self_set_directory_monitors. by destruct w.
  - cbn [for_each].
    destruct (Hexist entry) as [kind Hkind]; [by left|].
    pose proof (Hfree entry ltac:(by left)) as Hentry.
    subst found. unfold subdirectories. rewrite filter_cons.
    destruct kind.
    + (* a file: skipped *)
      rewrite decide_False by (by rewrite Hkind).
      erewrite bind_Ok; last first.
      { erewrite bind_Ok by (apply isDirectory_run; exact Hkind). reflexivity. }
      cbn [this world heap fs tasks].
      specialize (IH self {| heap := heap w; fs := fs w; tasks := tasks w |}).
      cbn [this world heap fs tasks] in IH. apply IH.
      * intros e He. apply Hexist. by right.
      * intros e He. apply Hfree. by right.
    + (* a directory: one monitor *)
      rewrite decide_True by done.
      erewrite bind_Ok; last first.
      { erewrite bind_Ok by (apply isDirectory_run; exact Hkind).
        cbn beta iota. apply createDirectoryMonitor_fresh. exact Hentry. }
      cbn [this world heap fs tasks].
      set (monitor := DirectoryMonitor.Build (length (tasks w)) entry (path self ++ [entry])).
      set (self' := set_directory_monitors (<[entry := monitor]> (directory_monitors self)) self).
      set (w' := {| heap := heap w; fs := fs w;
                    tasks := tasks w ++ [TaskStarted (length (tasks w)) entry] |}).
      etrans.
      { apply (IH self' w').
        - intros e He. apply Hexist. by right.
        - intros e He. subst self'. cbn [directory_monitors set_directory_monitors].
          rewrite lookup_insert_ne by (intros ->; contradiction).
          apply Hfree. by right. }
      subst self' w'. cbn [this world heap fs tasks path directory_monitors
                           set_directory_monitors monitors_for tasks_for foldl fst snd].
      rewrite length_app. cbn [length]. rewrite Nat.add_1_r, <- app_assoc.
      reflexivity.
Qed.

(** *** What a directory lists *)

Lemma child_name_Some p q entry : child_name p q = Some entry ↔ q = p ++ [entry].
Proof.
  unfold child_name. split.
  - destruct (last q) as [e|]; [|done]. case_decide; [|done]. by intros [= <-].
  - intros ->. rewrite last_snoc. by rewrite decide_True.
Qed.

Lemma elem_of_directory_entries (fs : FileSystem) p entry :
  entry ∈ directory_entries fs p ↔ is_Some (fs !! (p ++ [entry])).
Proof.
  unfold directory_entries. rewrite list_elem_of_omap. split.
  - intros (q & Hq & Hchild). apply child_name_Some in Hchild as ->.
    apply list_elem_of_fmap in Hq as ([q kind] & -> & Hq).
    apply elem_of_map_to_list in Hq. by eexists.
  - intros [kind Hkind]. exists (p ++ [entry]). split; [|by apply child_name_Some].
    apply list_elem_of_fmap. exists (p ++ [entry], kind).
    split; [done|]. by apply elem_of_map_to_list.
Qed.

Lemma NoDup_directory_entries (fs : FileSystem) p : NoDup (directory_entries fs p).
Proof.
  unfold directory_entries.
  generalize (NoDup_fst_map_to_list fs). generalize ((map_to_list fs).*1).
  intros keys Hkeys.
  induction Hkeys as [|q keys Hq Hkeys IH]; cbn; [constructor|].
  destruct (child_name p q) as [entry|] eqn:Hchild; [|done].
  constructor; [|done].
  intros (q' & Hq' & Hchild')%list_elem_of_omap.
  apply child_name_Some in Hchild, Hchild'. congruence.
Qed.

Lemma elem_of_subdirectories (fs : FileSystem) p entry :
  entry ∈ subdirectories fs p (directory_entries fs p)
  ↔ fs !! (p ++ [entry]) = Some Directory.
Proof.
  unfold subdirectories. rewrite list_elem_of_filter, elem_of_directory_entries.
  split; [tauto|]. intros Hdir. split; [done|]. by eexists.
Qed.

Lemma NoDup_subdirectories (fs : FileSystem) p :
  NoDup (subdirectories fs p (directory_entries fs p)).
Proof. apply NoDup_filter, NoDup_directory_entries. Qed.

(** *** The monitors a scan leaves in the mapping *)

Lemma monitors_for_lookup_notin storage_path names :
  ∀ next_id (m : gmap string DirectoryMonitor.t) entry,
    entry ∉ names →
    foldl (λ m kv, <[kv.1 := kv.2]> m) m (monitors_for storage_path next_id names) !! entry
    = m !! entry.
Proof.
  induction names as [|n names IH]; intros next_id m entry Hnotin; [done|].
  cbn [monitors_for foldl fst snd].
  apply not_elem_of_cons in Hnotin as [Hne Hnotin].
  rewrite IH by done. by rewrite lookup_insert_ne.
Qed.

Lemma monitors_for_lookup storage_path names :
  ∀ next_id (m : gmap string DirectoryMonitor.t) k entry,
    NoDup names →
    names !! k = Some entry →
    foldl (λ m kv, <[kv.1 := kv.2]> m) m (monitors_for storage_path next_id names) !! entry
    = Some (DirectoryMonitor.Build (next_id + k) entry (storage_path ++ [entry])).
Proof.
  induction names as [|n names IH]; intros next_id m k entry Hnodup Hk; [done|].
  apply NoDup_cons in Hnodup as [Hn Hnodup].
  cbn [monitors_for foldl fst snd].
  destruct k as [|k]; cbn in Hk.
  - injection Hk as ->. rewrite monitors_for_lookup_notin by done.
    by rewrite lookup_insert_eq, Nat.add_0_r.
  - rewrite (IH _ _ k) by done. do 2 f_equal. lia.
Qed.

Lemma monitors_for_dom storage_path names :
  ∀ next_id (m : gmap string DirectoryMonitor.t),
    dom (foldl (λ m kv, <[kv.1 := kv.2]> m) m (monitors_for storage_path next_id names))
    = list_to_set names ∪ dom m.
Proof.
  induction names as [|n names IH]; intros next_id m.
  - cbn. set_solver.
  - cbn [monitors_for foldl fst snd list_to_set]. rewrite IH, dom_insert_L. set_solver.
Qed.

Lemma tasks_for_length next_id names : length (tasks_for next_id names) = length names.
Proof.
  revert next_id. induction names as [|n names IH]; intros next_id; [done|].
  cbn. by rewrite IH.
Qed.

Lemma tasks_for_lookup names :
  ∀ next_id k, tasks_for next_id names !! k = TaskStarted (next_id + k) <$> names !! k.
Proof.
  induction names as [|n names IH]; intros next_id k; [done|].
  destruct k as [|k]; cbn.
  - by rewrite Nat.add_0_r.
  - rewrite IH. by replace (S next_id + k) with (next_id + S k) by lia.
Qed.

(** *** The scan as a whole, and the constructor *)

Lemma createDirectory_run self w :
  spool_usable (fs w) (path self) →
  ∃ created,
    in_world (in_fs (File_createDirectory (path self))) {| this := self; world := w |}
    = Ok (created,
          {| this := self;
             world := {| heap := heap w; fs := <[path self := Directory]> (fs w);
                         tasks := tasks w |} |}).
Proof.
  unfold in_world, in_fs, zoom, File_createDirectory. cbn [this world fs heap tasks].
  intros [Hdir|[Hnone Hparent]].
  - exists false. rewrite Hdir. by rewrite insert_id.
  - exists true. by rewrite Hnone, Hparent.
Qed.

Lemma createDirectoryMonitors_run self w :
  directory_monitors self = ∅ →
  spool_usable (fs w) (path self) →
  let fs' := <[path self := Directory]> (fs w) in
  let found := subdirectories fs' (path self) (directory_entries fs' (path self)) in
  createDirectoryMonitors {| this := self; world := w |}
  = Ok (tt,
        {| this :=
             set_directory_monitors
               (foldl (λ m kv, <[kv.1 := kv.2]> m) ∅
                      (monitors_for (path self) (length (tasks w)) found)) self;
           world := {| heap := heap w; fs := fs';
                       tasks := tasks w ++ tasks_for (length (tasks w)) found |} |}).
Proof.
  intros Hempty Husable fs' found.
  destruct (createDirectory_run self w Husable) as [created Hcreate].
  unfold createDirectoryMonitors.
  erewrite bind_Ok by reflexivity. cbn [this].
  erewrite bind_Ok by exact Hcreate.
  erewrite bind_Ok; last first.
  { unfold in_world, in_fs, zoom, DirectoryIterator. cbn [this world fs heap tasks].
    by rewrite lookup_insert_eq. }
  cbn [this world fs heap tasks]. fold fs'.
  pose proof (scan_loop (directory_entries fs' (path self)) self
                {| heap := heap w; fs := fs'; tasks := tasks w |}) as Hloop.
  cbn [this world fs heap tasks] in Hloop. rewrite Hempty in Hloop.
  apply Hloop.
  - apply NoDup_directory_entries.
  - intros entry. by rewrite elem_of_directory_entries.
  - intros entry _. apply lookup_empty.
Qed.

Lemma constructor_run
    name_ columns_ remote_database_ remote_table_ cluster_ context_ sharding_key_ data_path_ w :
  let spool := data_path_ ++ [escapeForFileName name_] in
  sharding_key_readable (heap w) sharding_key_ →
  spool_usable (fs w) spool →
  ∃ sharding_key_column_name_,
    let self0 :=
      member_initializers name_ columns_ remote_database_ remote_table_ cluster_ context_
        sharding_key_ sharding_key_column_name_ data_path_ in
    let fs' := <[spool := Directory]> (fs w) in
    let found := subdirectories fs' spool (directory_entries fs' spool) in
    StorageDistributed name_ columns_ remote_database_ remote_table_ cluster_ context_
      sharding_key_ data_path_ w
    = Ok (set_directory_monitors
            (foldl (λ m kv, <[kv.1 := kv.2]> m) ∅
                   (monitors_for spool (length (tasks w)) found)) self0,
          {| heap := heap w; fs := fs';
             tasks := tasks w ++ tasks_for (length (tasks w)) found |}).
Proof.
  intros spool Hkey Husable. unfold StorageDistributed.
  destruct Hkey as [->|(a & key & -> & Ha)].
  - exists String.EmptyString. cbn zeta.
    erewrite bind_Ok by reflexivity.
    unfold run_constructor_body.
    rewrite createDirectoryMonitors_run; [reflexivity|reflexivity|exact Husable].
  - exists (getColumnName key). cbn zeta.
    erewrite bind_Ok; last first.
    { erewrite bind_Ok; [reflexivity|].
      unfold in_heap, zoom, deref. by rewrite Ha. }
    unfold run_constructor_body.
    rewrite createDirectoryMonitors_run; [reflexivity|reflexivity|exact Husable].
Qed.

End Monitors.

(** C6. [requireDirectoryMonitor] is idempotent. It always returns; when the
    mapping has a monitor under [name] the call changes nothing at all;
    otherwise it starts one task and inserts exactly one monitor, under
    [name]. Either way no entry under another key is removed or replaced, no
    other member of the table changes, and a second call with the same name
    leaves the state the first call produced. *)
Theorem requireDirectoryMonitor_idempotent (name : string) (o : StorageDistributed.Obj) :
  let monitors o := StorageDistributed.directory_monitors (StorageDistributed.this o) in
  let started o := tasks (StorageDistributed.world o) in
  ∃ o',
    StorageDistributed.requireDirectoryMonitor name o = Ok (tt, o')
    ∧ (is_Some (monitors o !! name) → o' = o)
    ∧ (monitors o !! name = None →
       let monitor :=
         DirectoryMonitor.Build (length (started o)) name
           (StorageDistributed.path (StorageDistributed.this o) ++ [name]) in
       monitors o' = <[name := monitor]> (monitors o)
       ∧ size (monitors o') = S (size (monitors o))
       ∧ started o' = started o ++ [TaskStarted (length (started o)) name])
    ∧ (∀ other, other ≠ name → monitors o' !! other = monitors o !! other)
    ∧ StorageDistributed.same_but_monitors (StorageDistributed.this o) (StorageDistributed.this o')
    ∧ heap (StorageDistributed.world o') = heap (StorageDistributed.world o)
    ∧ fs (StorageDistributed.world o') = fs (StorageDistributed.world o)
    ∧ StorageDistributed.requireDirectoryMonitor name o' = Ok (tt, o')
    ∧ (StorageDistributed.requireDirectoryMonitor name;;
       StorageDistributed.requireDirectoryMonitor name) o
      = StorageDistributed.requireDirectoryMonitor name o.
Proof.
  destruct o as [self w]. intros monitors started. subst monitors started.
  cbn [StorageDistributed.this StorageDistributed.world].
  destruct (StorageDistributed.directory_monitors self !! name) as [monitor|] eqn:Hname.
  - (* already there: nothing happens *)
    pose proof (requireDirectoryMonitor_present name self w monitor Hname) as Hrun.
    exists {| StorageDistributed.this := self; StorageDistributed.world := w |}.
    cbn [StorageDistributed.this StorageDistributed.world].
    repeat split; try done.
    + unfold StorageDistributed.same_but_monitors.
      by rewrite self_set_directory_monitors.
    + by erewrite bind_Ok by exact Hrun.
  - (* not there: one monitor is built and inserted *)
    pose proof (requireDirectoryMonitor_absent name self w Hname) as Hrun.
    rewrite (createDirectoryMonitor_fresh name self w Hname) in Hrun.
    eexists. split; [exact Hrun|].
    cbn [StorageDistributed.this StorageDistributed.world
         StorageDistributed.directory_monitors StorageDistributed.set_directory_monitors
         heap fs tasks].
    assert (Hagain :
      StorageDistributed.requireDirectoryMonitor name
        {| StorageDistributed.this :=
             StorageDistributed.set_directory_monitors
               (<[name := DirectoryMonitor.Build (length (tasks w)) name
                            (StorageDistributed.path self ++ [name])]>
                  (StorageDistributed.directory_monitors self)) self;
           StorageDistributed.world :=
             {| heap := heap w; fs := fs w;
                tasks := tasks w ++ [TaskStarted (length (tasks w)) name] |} |}
      = Ok (tt,
        {| StorageDistributed.this :=
             StorageDistributed.set_directory_monitors
               (<[name := DirectoryMonitor.Build (length (tasks w)) name
                            (StorageDistributed.path self ++ [name])]>
                  (StorageDistributed.directory_monitors self)) self;
           StorageDistributed.world :=
             {| heap := heap w; fs := fs w;
                tasks := tasks w ++ [TaskStarted (length (tasks w)) name] |} |})).
    { eapply requireDirectoryMonitor_present.
      cbn [StorageDistributed.directory_monitors StorageDistributed.set_directory_monitors].
      apply lookup_insert_eq. }
    repeat split; try done.
    + by apply map_size_insert_None.
    + intros other Hother. by rewrite lookup_insert_ne.
    + erewrite bind_Ok by exact Hrun. by rewrite Hagain, Hrun.
Qed.

Lemma requireDirectoryMonitor_idempotent_witness :
  let monitors o := StorageDistributed.directory_monitors (StorageDistributed.this o) in
  let started o := tasks (StorageDistributed.world o) in
  let o := Example.monitored in
  ∃ o',
    StorageDistributed.requireDirectoryMonitor "shard2" o
      = Ok (tt, o')
    ∧ (is_Some (monitors o !! "shard2") → o' = o)
    ∧ (monitors o !! "shard2" = None →
       let monitor := DirectoryMonitor.Build 1 "shard2" (Example.spool ++ ["shard2"]) in
       monitors o' = <["shard2" := monitor]> (monitors o)
       ∧ size (monitors o') = S (size (monitors o))
       ∧ started o' = started o ++ [TaskStarted 1 "shard2"])
    ∧ (∀ other, other ≠ "shard2" → monitors o' !! other = monitors o !! other)
    ∧ StorageDistributed.same_but_monitors (StorageDistributed.this o) (StorageDistributed.this o')
    ∧ heap (StorageDistributed.world o') = heap (StorageDistributed.world o)
    ∧ fs (StorageDistributed.world o') = fs (StorageDistributed.world o)
    ∧ StorageDistributed.requireDirectoryMonitor "shard2" o'
      = Ok (tt, o')
    ∧ (StorageDistributed.requireDirectoryMonitor "shard2";;
       StorageDistributed.requireDirectoryMonitor "shard2") o
      = StorageDistributed.requireDirectoryMonitor "shard2" o.
Proof.
  exact (requireDirectoryMonitor_idempotent "shard2" Example.monitored).
Defined.

(** C7. [shutdown] always returns and empties the monitor mapping. Every
    monitor the mapping held is destroyed, which stops its task, and nothing
    else is stopped or started. No other member of the table changes, and the
    file system is the one found at the call: a directory scanned after the
    shutdown lists what it listed before. *)
Theorem shutdown_clears_monitors (o : StorageDistributed.Obj) :
  let monitors := StorageDistributed.directory_monitors (StorageDistributed.this o) in
  ∃ o',
    StorageDistributed.shutdown o = Ok (tt, o')
    ∧ StorageDistributed.directory_monitors (StorageDistributed.this o') = ∅
    ∧ StorageDistributed.this o'
      = StorageDistributed.set_directory_monitors ∅ (StorageDistributed.this o)
    ∧ fs (StorageDistributed.world o') = fs (StorageDistributed.world o)
    ∧ heap (StorageDistributed.world o') = heap (StorageDistributed.world o)
    ∧ (∃ stopped,
         tasks (StorageDistributed.world o') = tasks (StorageDistributed.world o) ++ stopped
         ∧ length stopped = size monitors
         ∧ ∀ event, event ∈ stopped ↔
             ∃ name monitor, monitors !! name = Some monitor
                             ∧ event = TaskStopped (DirectoryMonitor.id monitor))
    ∧ (∀ spool,
         subdirectories (fs (StorageDistributed.world o')) spool
           (directory_entries (fs (StorageDistributed.world o')) spool)
         = subdirectories (fs (StorageDistributed.world o)) spool
             (directory_entries (fs (StorageDistributed.world o)) spool)).
Proof.
  destruct o as [self w]. intros monitors. subst monitors.
  eexists. split; [apply shutdown_run|].
  cbn [StorageDistributed.this StorageDistributed.world heap fs tasks].
  repeat split.
  eexists. split; [reflexivity|]. split.
  - by rewrite !length_map, length_map_to_list.
  - intros event. rewrite list_elem_of_fmap. split.
    + intros (monitor & -> & Hin).
      apply list_elem_of_fmap in Hin as ([name m] & -> & Hin).
      apply elem_of_map_to_list in Hin. by exists name, m.
    + intros (name & monitor & Hname & ->).
      exists monitor. split; [done|].
      apply list_elem_of_fmap. exists (name, monitor).
      split; [done|]. by apply elem_of_map_to_list.
Qed.

Lemma shutdown_clears_monitors_witness :
  let o := Example.monitored in
  let monitors : gmap string DirectoryMonitor.t := {[ "shard1" := Example.shard1_monitor ]} in
  ∃ o',
    StorageDistributed.shutdown o = Ok (tt, o')
    ∧ StorageDistributed.directory_monitors (StorageDistributed.this o') = ∅
    ∧ StorageDistributed.this o'
      = StorageDistributed.set_directory_monitors ∅ (StorageDistributed.this o)
    ∧ fs (StorageDistributed.world o') = Example.disk
    ∧ heap (StorageDistributed.world o') = heap (StorageDistributed.world o)
    ∧ (∃ stopped,
         tasks (StorageDistributed.world o') = [TaskStarted 0 "shard1"] ++ stopped
         ∧ length stopped = size monitors
         ∧ ∀ event, event ∈ stopped ↔
             ∃ name monitor, monitors !! name = Some monitor
                             ∧ event = TaskStopped (DirectoryMonitor.id monitor))
    ∧ (∀ spool,
         subdirectories (fs (StorageDistributed.world o')) spool
           (directory_entries (fs (StorageDistributed.world o')) spool)
         = subdirectories Example.disk spool (directory_entries Example.disk spool)).
Proof. exact (shutdown_clears_monitors Example.monitored). Defined.

Example shutdown_example :
  StorageDistributed.shutdown Example.monitored
  = Ok (tt,
        {| StorageDistributed.this := Example.table Example.two_remote_one_local true;
           StorageDistributed.world :=
             {| heap := heap Example.world;
                fs := Example.disk;
                tasks := [TaskStarted 0 "shard1"; TaskStopped 0] |} |}).
Proof.
  unfold Example.monitored. rewrite shutdown_run.
  unfold Example.monitored_table. cbn [StorageDistributed.directory_monitors
    StorageDistributed.set_directory_monitors].
  rewrite map_to_list_singleton. reflexivity.
Qed.

(** ** Construction *)

(** C8. Constructing a table whose spool directory is there, or can be made
    below an existing data directory, returns. The spool directory exists
    afterwards: it is created when absent and left as it is when present, so
    that constructing once more changes nothing on disk. One monitor is
    built, and one task started, for each directory found below the spool
    path, keyed by the directory's name; an entry that is not a directory
    gets no monitor. *)
Theorem constructor_creates_one_monitor_per_subdirectory `{Collaborators}
    name_ columns_ remote_database_ remote_table_ cluster_ context_ sharding_key_ data_path_
    (w : World) :
  let spool := data_path_ ++ [escapeForFileName name_] in
  sharding_key_readable (heap w) sharding_key_ →
  spool_usable (fs w) spool →
  ∃ self w' found,
    StorageDistributed.StorageDistributed name_ columns_ remote_database_ remote_table_
      cluster_ context_ sharding_key_ data_path_ w = Ok (self, w')
    ∧ StorageDistributed.path self = spool
    (* the spool directory *)
    ∧ fs w' = <[spool := Directory]> (fs w)
    ∧ (fs w !! spool = Some Directory → fs w' = fs w)
    ∧ (∃ self'' w'',
         StorageDistributed.StorageDistributed name_ columns_ remote_database_ remote_table_
           cluster_ context_ sharding_key_ data_path_ w' = Ok (self'', w'')
         ∧ fs w'' = fs w')
    (* the directories below it, each listed once *)
    ∧ NoDup found
    ∧ (∀ entry, entry ∈ found ↔ fs w !! (spool ++ [entry]) = Some Directory)
    (* one monitor and one task for each *)
    ∧ (∀ k entry,
         found !! k = Some entry →
         StorageDistributed.directory_monitors self !! entry
         = Some (DirectoryMonitor.Build (length (tasks w) + k) entry (spool ++ [entry])))
    ∧ size (StorageDistributed.directory_monitors self) = length found
    ∧ tasks w' = tasks w ++ tasks_for (length (tasks w)) found
    (* and for nothing else *)
    ∧ (∀ entry,
         fs w !! (spool ++ [entry]) ≠ Some Directory →
         StorageDistributed.directory_monitors self !! entry = None).
Proof.
  intros spool Hkey Husable.
  destruct (constructor_run name_ columns_ remote_database_ remote_table_ cluster_ context_
              sharding_key_ data_path_ w Hkey Husable) as [key_column Hrun].
  cbn zeta in Hrun. fold spool in Hrun.
  set (fs' := <[spool := Directory]> (fs w)) in *.
  set (found := subdirectories fs' spool (directory_entries fs' spool)) in *.
  assert (Hfound : ∀ entry, entry ∈ found ↔ fs w !! (spool ++ [entry]) = Some Directory).
  { intros entry. subst found. rewrite elem_of_subdirectories. subst fs'.
    rewrite lookup_insert_ne; [done|].
    intros Heq. apply (f_equal length) in Heq. rewrite length_app in Heq. cbn in Heq. lia. }
  assert (Hnodup : NoDup found) by apply NoDup_subdirectories.
  eexists _, _, found. split; [exact Hrun|].
  cbn [StorageDistributed.path StorageDistributed.set_directory_monitors
       StorageDistributed.member_initializers StorageDistributed.directory_monitors
       heap fs tasks].
  split; [reflexivity|]. split; [reflexivity|].
  split; [intros Hdir; by apply insert_id|].
  split.
  { (* a second construction *)
    edestruct (constructor_run name_ columns_ remote_database_ remote_table_ cluster_
                 context_ sharding_key_ data_path_
                 {| heap := heap w; fs := fs';
                    tasks := tasks w ++ tasks_for (length (tasks w)) found |})
      as [key_column' Hrun'].
    - exact Hkey.
    - left. cbn [fs]. subst fs'. apply lookup_insert_eq.
    - cbn zeta in Hrun'. eexists _, _. split; [exact Hrun'|].
      cbn [fs]. subst fs'. by rewrite insert_insert_eq. }
  split; [exact Hnodup|]. split; [exact Hfound|].
  split; [intros k entry Hk; by apply monitors_for_lookup|].
  split.
  { rewrite <- size_dom, monitors_for_dom, dom_empty_L, (right_id_L ∅ (∪)).
    by apply size_list_to_set. }
  split; [reflexivity|].
  intros entry Hnot. rewrite monitors_for_lookup_notin; [apply lookup_empty|].
  by rewrite Hfound.
Qed.

Lemma constructor_creates_one_monitor_per_subdirectory_witness :
  let construct :=
    StorageDistributed.StorageDistributed (H := Example.collaborators)
      "hits_all" [("UserID", "UInt64")] "shard_db" "hits_local"
      Example.two_remote_one_local Example.context nullptr ["data"; "default"] in
  let w := Example.world in
  let spool := Example.spool in
  ∃ self w' found,
    construct w = Ok (self, w')
    ∧ StorageDistributed.path self = spool
    ∧ fs w' = <[spool := Directory]> (fs w)
    ∧ (fs w !! spool = Some Directory → fs w' = fs w)
    ∧ (∃ self'' w'', construct w' = Ok (self'', w'') ∧ fs w'' = fs w')
    ∧ NoDup found
    ∧ (∀ entry, entry ∈ found ↔ fs w !! (spool ++ [entry]) = Some Directory)
    ∧ (∀ k entry,
         found !! k = Some entry →
         StorageDistributed.directory_monitors self !! entry
         = Some (DirectoryMonitor.Build (length (tasks w) + k) entry (spool ++ [entry])))
    ∧ size (StorageDistributed.directory_monitors self) = length found
    ∧ tasks w' = tasks w ++ tasks_for (length (tasks w)) found
    ∧ (∀ entry,
         fs w !! (spool ++ [entry]) ≠ Some Directory →
         StorageDistributed.directory_monitors self !! entry = None).
Proof.
  apply (constructor_creates_one_monitor_per_subdirectory (H := Example.collaborators)
           "hits_all" [("UserID", "UInt64")] "shard_db" "hits_local"
           Example.two_remote_one_local Example.context nullptr ["data"; "default"]
           Example.world).
  - left. reflexivity.
  - left. vm_compute. reflexivity.
Defined.

(** The example disk, which lists "shard2" before "shard1": a monitor for
    each, none for the file "increment.txt", two tasks started. *)
Example constructor_example :
  ∃ self w',
    StorageDistributed.StorageDistributed (H := Example.collaborators)
      "hits_all" [("UserID", "UInt64")] "shard_db" "hits_local"
      Example.two_remote_one_local Example.context nullptr ["data"; "default"] Example.world
    = Ok (self, w')
    ∧ StorageDistributed.directory_monitors self !! "shard2"
      = Some (DirectoryMonitor.Build 0 "shard2" (Example.spool ++ ["shard2"]))
    ∧ StorageDistributed.directory_monitors self !! "shard1"
      = Some (DirectoryMonitor.Build 1 "shard1" (Example.spool ++ ["shard1"]))
    ∧ StorageDistributed.directory_monitors self !! "increment.txt" = None
    ∧ tasks w' = [TaskStarted 0 "shard2"; TaskStarted 1 "shard1"].
Proof.
  destruct (constructor_run (H := Example.collaborators)
              "hits_all" [("UserID", "UInt64")] "shard_db" "hits_local"
              Example.two_remote_one_local Example.context nullptr ["data"; "default"]
              Example.world) as [key_column Hrun].
  { by left. }
  { left. vm_compute. reflexivity. }
  cbn zeta in Hrun.
  assert (Hfound :
    subdirectories (<[Example.spool := Directory]> Example.disk) Example.spool
      (directory_entries (<[Example.spool := Directory]> Example.disk) Example.spool)
    = ["shard2"; "shard1"]) by (vm_compute; reflexivity).
  change (subdirectories _ _ _) with
    (subdirectories (<[Example.spool := Directory]> Example.disk) Example.spool
       (directory_entries (<[Example.spool := Directory]> Example.disk) Example.spool))
    in Hrun.
  rewrite Hfound in Hrun.
  eexists _, _. split; [exact Hrun|].
  repeat split; vm_compute; reflexivity.
Qed.

(** Without the spool directory the constructor makes it, below an existing
    data directory; it stops when the data directory is missing or when a
    file has taken the spool directory's name. *)
Example constructor_makes_spool_directory :
  ∃ self w',
    StorageDistributed.StorageDistributed (H := Example.collaborators)
      "visits_all" [] "shard_db" "visits_local"
      Example.two_remote_one_local Example.context nullptr ["data"; "default"] Example.world
    = Ok (self, w')
    ∧ StorageDistributed.directory_monitors self = ∅
    ∧ fs w' = <[ ["data"; "default"; "visits_all"] := Directory ]> Example.disk
    ∧ tasks w' = [].
Proof.
  destruct (constructor_run (H := Example.collaborators)
              "visits_all" [] "shard_db" "visits_local"
              Example.two_remote_one_local Example.context nullptr ["data"; "default"]
              Example.world) as [key_column Hrun].
  { by left. }
  { right. split; vm_compute; reflexivity. }
  cbn zeta in Hrun.
  set (spool := ["data"; "default"; "visits_all"]).
  assert (Hfound :
    subdirectories (<[spool := Directory]> Example.disk) spool
      (directory_entries (<[spool := Directory]> Example.disk) spool)
    = []) by (vm_compute; reflexivity).
  change (subdirectories _ _ _) with
    (subdirectories (<[spool := Directory]> Example.disk) spool
       (directory_entries (<[spool := Directory]> Example.disk) spool))
    in Hrun.
  rewrite Hfound in Hrun.
  eexists _, _. split; [exact Hrun|].
  repeat split.
Qed.

Example constructor_needs_data_directory :
  StorageDistributed.StorageDistributed (H := Example.collaborators)
    "visits_all" [] "shard_db" "visits_local"
    Example.two_remote_one_local Example.context nullptr ["data"; "other"] Example.world
  = Throw PATH_NOT_FOUND.
Proof. vm_compute. reflexivity. Qed.

Example constructor_refuses_file :
  StorageDistributed.StorageDistributed (H := Example.collaborators)
    "increment.txt" [] "shard_db" "visits_local"
    Example.two_remote_one_local Example.context nullptr Example.spool Example.world
  = Throw FILE_EXISTS.
Proof. vm_compute. reflexivity. Qed.

(** ** Write eligibility *)

Lemma write_Ok_this query o sink o' :
  StorageDistributed.write query o = Ok (sink, o') →
  StorageDistributed.this o' = StorageDistributed.this o.
Proof.
  unfold StorageDistributed.write, StorageDistributed.get_this, StorageDistributed.in_world,
    in_heap, zoom, throw.
  unfold mbind, M_bind, bind, mret, M_ret, ret.
  destruct (StorageDistributed.write_enabled (StorageDistributed.this o)); [|done].
  cbn [negb]. destruct (rewriteQuery _ _ _ _ _) as [[p h']|e]; [|done].
  by intros [= _ <-].
Qed.

Lemma requireDirectoryMonitor_same_but_monitors name o :
  ∃ o', StorageDistributed.requireDirectoryMonitor name o = Ok (tt, o')
        ∧ StorageDistributed.same_but_monitors
            (StorageDistributed.this o) (StorageDistributed.this o').
Proof.
  destruct o as [self w].
  destruct (StorageDistributed.directory_monitors self !! name) as [monitor|] eqn:Hname.
  - eexists. split; [by eapply requireDirectoryMonitor_present|].
    unfold StorageDistributed.same_but_monitors. cbn.
    by rewrite self_set_directory_monitors.
  - eexists. split.
    + rewrite requireDirectoryMonitor_absent by done.
      by apply createDirectoryMonitor_fresh.
    + reflexivity.
Qed.

(** C1. [write] throws STORAGE_REQUIRES_PARAMETER exactly when the table's
    [write_enabled] is false. The constructor sets [write_enabled] to
    (local replicas + remote pools < 2) or (a sharding key is given), and no
    method changes it afterwards. On a table with [write_enabled], [write] of
    an insert query returns a sink over the retargeted copy of the query
    (database and table replaced, no nested select) and leaves the table and
    the caller's query as they were. *)
Theorem write_throws_iff_not_write_enabled `{Collaborators} :
  (∀ query o,
     StorageDistributed.write query o = Throw STORAGE_REQUIRES_PARAMETER
     ↔ StorageDistributed.write_enabled (StorageDistributed.this o) = false)
  ∧
  (∀ name_ columns_ remote_database_ remote_table_ cluster_ context_ sharding_key_
     data_path_ (w : World),
     Cluster.fits cluster_ →
     sharding_key_readable (heap w) sharding_key_ →
     spool_usable (fs w) (data_path_ ++ [escapeForFileName name_]) →
     ∃ self w',
       StorageDistributed.StorageDistributed name_ columns_ remote_database_ remote_table_
         cluster_ context_ sharding_key_ data_path_ w = Ok (self, w')
       ∧ StorageDistributed.write_enabled self
         = ((Cluster.getLocalNodesNum cluster_ + Cluster.pools_size cluster_ <? 2)%N
            || bool_decide (sharding_key_ ≠ nullptr)))
  ∧
  (∀ o o',
     ((∃ column_names query settings max_block_size threads res,
         StorageDistributed.read column_names query settings max_block_size threads o
         = Ok (res, o'))
      ∨ (∃ query sink, StorageDistributed.write query o = Ok (sink, o'))
      ∨ (∃ name, StorageDistributed.requireDirectoryMonitor name o = Ok (tt, o'))
      ∨ StorageDistributed.shutdown o = Ok (tt, o')) →
     StorageDistributed.write_enabled (StorageDistributed.this o')
     = StorageDistributed.write_enabled (StorageDistributed.this o))
  ∧
  (∀ query (self : StorageDistributed.t) (w : World) database table select children,
     StorageDistributed.write_enabled self = true →
     heap w !! query = Some (InsertQuery database table select children) →
     ∃ query_ast o',
       StorageDistributed.write (Some query)
         {| StorageDistributed.this := self; StorageDistributed.world := w |}
       = Ok ({| sink_storage := StorageDistributed.name self;
                sink_query_ast := Some query_ast |}, o')
       ∧ StorageDistributed.this o' = self
       ∧ heap (StorageDistributed.world o') !! query_ast
         = Some (InsertQuery (StorageDistributed.remote_database self)
                             (StorageDistributed.remote_table self) None children)
       ∧ heap (StorageDistributed.world o') !! query
         = Some (InsertQuery database table select children)).
Proof.
  split; [|split; [|split]].
  - intros query o. split.
    + intros Hthrow. apply write_Throw in Hthrow.
      destruct (StorageDistributed.write_enabled _); [|done].
      by destruct Hthrow.
    + apply write_disabled.
  - intros name_ columns_ rdb rtb cluster_ context_ key data_path_ w Hfits Hkey Husable.
    destruct (constructor_run name_ columns_ rdb rtb cluster_ context_ key data_path_ w
                Hkey Husable) as [key_column Hrun].
    eexists _, _. split; [exact Hrun|].
    cbn [StorageDistributed.write_enabled StorageDistributed.set_directory_monitors
         StorageDistributed.member_initializers].
    unfold size_t_add. rewrite N.mod_small; [done|].
    unfold Cluster.fits, Cluster.getLocalNodesNum in *. lia.
  - intros o o' [Hread|[Hwrite|[Hrequire|Hshutdown]]].
    + destruct Hread as (cols & q & s & mbs & th & [res stage] & Hread).
      apply read_Ok_cleared in Hread. by rewrite Hread.
    + destruct Hwrite as (q & sink & Hwrite).
      apply write_Ok_this in Hwrite. by rewrite Hwrite.
    + destruct Hrequire as (name & Hrequire).
      destruct (requireDirectoryMonitor_same_but_monitors name o) as (o'' & Hrun & Hsame).
      rewrite Hrun in Hrequire. injection Hrequire as <-.
      unfold StorageDistributed.same_but_monitors in Hsame. by rewrite Hsame.
    + destruct o as [self w]. rewrite shutdown_run in Hshutdown.
      by injection Hshutdown as <-.
  - intros query self w d t sel c Henabled Hquery.
    eexists _, _. split; [by eapply write_run|].
    cbn [StorageDistributed.this StorageDistributed.world heap].
    split; [done|]. split.
    + by rewrite list_lookup_middle.
    + by rewrite lookup_app_l by (by eapply lookup_lt_Some).
Qed.

Lemma write_throws_iff_not_write_enabled_witness :
  (∃ self w',
     StorageDistributed.StorageDistributed (H := Example.collaborators)
       "hits_all" [("UserID", "UInt64")] "shard_db" "hits_local"
       Example.two_remote Example.context (Some 2) ["data"; "default"] Example.world
     = Ok (self, w')
     ∧ StorageDistributed.write_enabled self
       = ((0 + 2 <? 2)%N || bool_decide (Some 2 ≠ nullptr)))
  ∧
  (∃ query_ast o',
     StorageDistributed.write (Some 0)
       {| StorageDistributed.this := Example.table Example.two_remote true;
          StorageDistributed.world := Example.world |}
     = Ok ({| sink_storage := "hits_all"; sink_query_ast := Some query_ast |}, o')
     ∧ StorageDistributed.this o' = Example.table Example.two_remote true
     ∧ heap (StorageDistributed.world o') !! query_ast
       = Some (InsertQuery "shard_db" "hits_local" None [OtherNode "(UserID, URL)" []])
     ∧ heap (StorageDistributed.world o') !! 0 = Some Example.insert_query).
Proof.
  split.
  - apply (proj1 (proj2 (write_throws_iff_not_write_enabled (H := Example.collaborators)))
             "hits_all" [("UserID", "UInt64")] "shard_db" "hits_local"
             Example.two_remote Example.context (Some 2) ["data"; "default"] Example.world).
    + by vm_compute.
    + right. exists 2, Example.sharding_key. by split.
    + left. vm_compute. reflexivity.
  - apply (proj2 (proj2 (proj2 (write_throws_iff_not_write_enabled
                                  (H := Example.collaborators))))
             0 (Example.table Example.two_remote true) Example.world
             "default" "hits_all" (Some Example.nested_select)
             [OtherNode "(UserID, URL)" []]);
      reflexivity.
Defined.

(** Two remote shards: without a sharding key the constructed table refuses
    [write]; with one it accepts it. *)
Example write_needs_sharding_key :
  ∃ self w',
    StorageDistributed.StorageDistributed (H := Example.collaborators)
      "hits_all" [("UserID", "UInt64")] "shard_db" "hits_local"
      Example.two_remote Example.context nullptr ["data"; "default"] Example.world
    = Ok (self, w')
    ∧ StorageDistributed.write_enabled self = false
    ∧ StorageDistributed.write (Some 0)
        {| StorageDistributed.this := self; StorageDistributed.world := w' |}
      = Throw STORAGE_REQUIRES_PARAMETER.
Proof.
  destruct (constructor_run (H := Example.collaborators)
              "hits_all" [("UserID", "UInt64")] "shard_db" "hits_local"
              Example.two_remote Example.context nullptr ["data"; "default"]
              Example.world) as [key_column Hrun].
  { by left. }
  { left. vm_compute. reflexivity. }
  eexists _, _. split; [exact Hrun|].
  split; [by vm_compute|].
  apply write_disabled. by vm_compute.
Qed.

Example write_with_sharding_key :
  ∃ self w' o',
    StorageDistributed.StorageDistributed (H := Example.collaborators)
      "hits_all" [("UserID", "UInt64")] "shard_db" "hits_local"
      Example.two_remote Example.context (Some 2) ["data"; "default"] Example.world
    = Ok (self, w')
    ∧ StorageDistributed.write_enabled self = true
    ∧ StorageDistributed.write (Some 0)
        {| StorageDistributed.this := self; StorageDistributed.world := w' |}
      = Ok ({| sink_storage := "hits_all"; sink_query_ast := Some 3 |}, o').
Proof.
  destruct (constructor_run (H := Example.collaborators)
              "hits_all" [("UserID", "UInt64")] "shard_db" "hits_local"
              Example.two_remote Example.context (Some 2) ["data"; "default"]
              Example.world) as [key_column Hrun].
  { right. exists 2, Example.sharding_key. by split. }
  { left. vm_compute. reflexivity. }
  eexists _, _, _. split; [exact Hrun|].
  split; [by vm_compute|].
  erewrite write_run; [reflexivity|by vm_compute|reflexivity].
Qed.

(** A query of another class stops [write] in the cast, with another error. *)
Example write_of_a_select_query :
  StorageDistributed.write (Some 1)
    {| StorageDistributed.this := Example.table Example.two_remote true;
       StorageDistributed.world := Example.world |}
  = Throw BAD_CAST.
Proof. reflexivity. Qed.

(** ** Column lookup *)

(** C10. Virtual columns come first. Whenever the virtual-column factory
    knows a type for the name, [getColumn] returns the name with that type,
    whatever the real columns are; otherwise it returns what the real-column
    lookup returns. [hasColumn] holds exactly when the name is a virtual
    column or a real column. *)
Theorem getColumn_prefers_virtual_columns `{Collaborators}
    (self : StorageDistributed.t) (column_name : string) :
  (∀ type,
     VirtualColumnFactory_tryGetType column_name = Some type →
     StorageDistributed.getColumn self column_name = Ok (column_name, type))
  ∧ (VirtualColumnFactory_tryGetType column_name = None →
     StorageDistributed.getColumn self column_name
     = getRealColumn (StorageDistributed.columns self) column_name)
  ∧ (StorageDistributed.hasColumn self column_name = true
     ↔ VirtualColumnFactory_hasColumn column_name = true
       ∨ hasRealColumn (StorageDistributed.columns self) column_name = true).
Proof.
  unfold StorageDistributed.getColumn, StorageDistributed.hasColumn.
  split; [|split].
  - by intros type ->.
  - by intros ->.
  - apply orb_true_iff.
Qed.

Lemma getColumn_prefers_virtual_columns_witness :
  let self := Example.table Example.two_remote_one_local true in
  StorageDistributed.getColumn (H := Example.collaborators) self "_table"
    = Ok ("_table", "String")
  ∧ StorageDistributed.getColumn (H := Example.collaborators) self "UserID"
    = Ok ("UserID", "UInt64")
  ∧ (StorageDistributed.hasColumn (H := Example.collaborators) self "URL" = true
     ↔ false = true ∨ false = true).
Proof.
  intros self. split; [|split].
  - apply (proj1 (getColumn_prefers_virtual_columns (H := Example.collaborators)
                    self "_table")).
    reflexivity.
  - etrans.
    + apply (proj1 (proj2 (getColumn_prefers_virtual_columns (H := Example.collaborators)
                             self "UserID"))).
      reflexivity.
    + reflexivity.
  - apply (proj2 (proj2 (getColumn_prefers_virtual_columns (H := Example.collaborators)
                           self "URL"))).
Defined.

(** * Further properties *)

(** ** Retargeting: the class check and repeated retargeting *)

(** X1. [rewriteQuery] checks the class of the object it is given. On a live
    object it returns exactly when the object is of the class it was
    instantiated for, and stops with BAD_CAST otherwise: the select variant
    refuses an insert query, the insert variant a select query. *)
Theorem rewriteQuery_checks_the_class (h : Heap) a node database table :
  h !! a = Some node →
  ((∃ r, rewriteQuery ASTSelectQuery.t (Some a) database table h = Ok r)
   ↔ ∃ d t c, node = SelectQuery d t c)
  ∧ ((∀ d t c, node ≠ SelectQuery d t c) →
     rewriteQuery ASTSelectQuery.t (Some a) database table h = Throw BAD_CAST)
  ∧ ((∃ r, rewriteQuery ASTInsertQuery.t (Some a) database table h = Ok r)
     ↔ ∃ d t s c, node = InsertQuery d t s c)
  ∧ ((∀ d t s c, node ≠ InsertQuery d t s c) →
     rewriteQuery ASTInsertQuery.t (Some a) database table h = Throw BAD_CAST).
Proof.
  intros Ha. repeat split.
  - intros [[p h'] Hrun].
    apply rewriteQuery_Ok_inv in Hrun as (a' & node' & obj & [= <-] & Ha' & Hcast & _).
    rewrite Ha in Ha'. injection Ha' as <-.
    destruct node; try done. by eexists _, _, _.
  - intros (d & t & c & ->). eexists. by eapply rewriteQuery_run.
  - intros Hother. eapply rewriteQuery_bad_cast; [exact Ha|].
    destruct node; try done. by destruct (Hother database0 table0 children).
  - intros [[p h'] Hrun].
    apply rewriteQuery_Ok_inv in Hrun as (a' & node' & obj & [= <-] & Ha' & Hcast & _).
    rewrite Ha in Ha'. injection Ha' as <-.
    destruct node; try done. by eexists _, _, _, _.
  - intros (d & t & sel & c & ->). eexists. by eapply rewriteQuery_run.
  - intros Hother. eapply rewriteQuery_bad_cast; [exact Ha|].
    destruct node; try done. by destruct (Hother database0 table0 select children).
Qed.

Lemma rewriteQuery_checks_the_class_witness :
  let h := heap Example.world in
  ((∃ r, rewriteQuery ASTSelectQuery.t (Some 0) "shard_db" "hits_local" h = Ok r)
   ↔ ∃ d t c, Example.insert_query = SelectQuery d t c)
  ∧ ((∀ d t c, Example.insert_query ≠ SelectQuery d t c) →
     rewriteQuery ASTSelectQuery.t (Some 0) "shard_db" "hits_local" h = Throw BAD_CAST)
  ∧ ((∃ r, rewriteQuery ASTInsertQuery.t (Some 0) "shard_db" "hits_local" h = Ok r)
     ↔ ∃ d t s c, Example.insert_query = InsertQuery d t s c)
  ∧ ((∀ d t s c, Example.insert_query ≠ InsertQuery d t s c) →
     rewriteQuery ASTInsertQuery.t (Some 0) "shard_db" "hits_local" h = Throw BAD_CAST).
Proof.
  intros h.
  apply (rewriteQuery_checks_the_class h 0 Example.insert_query "shard_db" "hits_local").
  reflexivity.
Defined.

(** X2. Retargeting composes: retargeting the result of a retargeting gives
    the query retargeted to the last pair alone, as a third object. The
    caller's query and the first copy are both still what they were, and the
    second copy never shows the first pair. *)
Theorem rewriteQuery_twice_last_target_wins :
  (∀ (h : Heap) a database table children db1 tb1 db2 tb2,
     h !! a = Some (SelectQuery database table children) →
     ∃ a1 h1 a2 h2,
       rewriteQuery ASTSelectQuery.t (Some a) db1 tb1 h = Ok (Some a1, h1)
       ∧ rewriteQuery ASTSelectQuery.t (Some a1) db2 tb2 h1 = Ok (Some a2, h2)
       ∧ a ≠ a1 ∧ a1 ≠ a2 ∧ a ≠ a2
       ∧ h2 !! a = Some (SelectQuery database table children)
       ∧ h2 !! a1 = h1 !! a1
       ∧ h2 !! a2 = Some (SelectQuery (Some (Identifier db2 Database))
                                      (Some (Identifier tb2 Table)) children)
       ∧ ∃ a' h', rewriteQuery ASTSelectQuery.t (Some a) db2 tb2 h = Ok (Some a', h')
                  ∧ h' !! a' = h2 !! a2)
  ∧
  (∀ (h : Heap) a database table select children db1 tb1 db2 tb2,
     h !! a = Some (InsertQuery database table select children) →
     ∃ a1 h1 a2 h2,
       rewriteQuery ASTInsertQuery.t (Some a) db1 tb1 h = Ok (Some a1, h1)
       ∧ rewriteQuery ASTInsertQuery.t (Some a1) db2 tb2 h1 = Ok (Some a2, h2)
       ∧ a ≠ a1 ∧ a1 ≠ a2 ∧ a ≠ a2
       ∧ h2 !! a = Some (InsertQuery database table select children)
       ∧ h2 !! a1 = h1 !! a1
       ∧ h2 !! a2 = Some (InsertQuery db2 tb2 None children)
       ∧ ∃ a' h', rewriteQuery ASTInsertQuery.t (Some a) db2 tb2 h = Ok (Some a', h')
                  ∧ h' !! a' = h2 !! a2).
Proof.
  split.
  - intros h a d t c db1 tb1 db2 tb2 Ha.
    pose proof (lookup_lt_Some _ _ _ Ha) as Hlt.
    eexists (length h), _, (S (length h)), _.
    split; [by eapply rewriteQuery_run|].
    split.
    { erewrite rewriteQuery_run; [|by rewrite list_lookup_middle|reflexivity].
      rewrite length_app, Nat.add_1_r. reflexivity. }
    cbn [upcast rewritable_select rewriteImpl ASTSelectQuery.children
         ASTSelectQuery.database ASTSelectQuery.table].
    assert (Hlast : ∀ (l : Heap) x y, (l ++ [x] ++ [y]) !! S (length l) = Some y).
    { intros l x y. rewrite app_assoc.
      rewrite (list_lookup_middle _ [] y (S (length l))); [done|].
      rewrite length_app. cbn. lia. }
    repeat split; try lia.
    + rewrite !lookup_app_l; [done|lia|rewrite length_app; lia].
    + rewrite lookup_app_l; [done|]. rewrite length_app. cbn. lia.
    + by rewrite <- app_assoc, Hlast.
    + eexists _, _. split; [by eapply rewriteQuery_run|].
      by rewrite list_lookup_middle, <- app_assoc, Hlast.
  - intros h a d t sel c db1 tb1 db2 tb2 Ha.
    pose proof (lookup_lt_Some _ _ _ Ha) as Hlt.
    eexists (length h), _, (S (length h)), _.
    split; [by eapply rewriteQuery_run|].
    split.
    { erewrite rewriteQuery_run; [|by rewrite list_lookup_middle|reflexivity].
      rewrite length_app, Nat.add_1_r. reflexivity. }
    cbn [upcast rewritable_insert rewriteImpl ASTInsertQuery.children
         ASTInsertQuery.database ASTInsertQuery.table ASTInsertQuery.select].
    assert (Hlast : ∀ (l : Heap) x y, (l ++ [x] ++ [y]) !! S (length l) = Some y).
    { intros l x y. rewrite app_assoc.
      rewrite (list_lookup_middle _ [] y (S (length l))); [done|].
      rewrite length_app. cbn. lia. }
    repeat split; try lia.
    + rewrite !lookup_app_l; [done|lia|rewrite length_app; lia].
    + rewrite lookup_app_l; [done|]. rewrite length_app. cbn. lia.
    + by rewrite <- app_assoc, Hlast.
    + eexists _, _. split; [by eapply rewriteQuery_run|].
      by rewrite list_lookup_middle, <- app_assoc, Hlast.
Qed.

Lemma rewriteQuery_twice_last_target_wins_witness :
  let h := heap Example.world in
  ∃ a1 h1 a2 h2,
    rewriteQuery ASTInsertQuery.t (Some 0) "db1" "t1" h = Ok (Some a1, h1)
    ∧ rewriteQuery ASTInsertQuery.t (Some a1) "db2" "t2" h1 = Ok (Some a2, h2)
    ∧ 0 ≠ a1 ∧ a1 ≠ a2 ∧ 0 ≠ a2
    ∧ h2 !! 0 = Some Example.insert_query
    ∧ h2 !! a1 = h1 !! a1
    ∧ h2 !! a2 = Some (InsertQuery "db2" "t2" None [OtherNode "(UserID, URL)" []])
    ∧ ∃ a' h', rewriteQuery ASTInsertQuery.t (Some 0) "db2" "t2" h = Ok (Some a', h')
               ∧ h' !! a' = h2 !! a2.
Proof.
  intros h.
  apply (proj2 rewriteQuery_twice_last_target_wins h 0 "default" "hits_all"
           (Some Example.nested_select) [OtherNode "(UserID, URL)" []]).
  reflexivity.
Defined.

(** ** [read] and [write]: what they refuse, what they touch *)

Lemma write_Throw_of_rewrite query o e :
  StorageDistributed.write_enabled (StorageDistributed.this o) = true →
  rewriteQuery ASTInsertQuery.t query
    (StorageDistributed.remote_database (StorageDistributed.this o))
    (StorageDistributed.remote_table (StorageDistributed.this o))
    (heap (StorageDistributed.world o)) = Throw e →
  StorageDistributed.write query o = Throw e.
Proof.
  intros Henabled Hrw.
  unfold StorageDistributed.write, StorageDistributed.get_this, StorageDistributed.in_world,
    in_heap, zoom.
  unfold mbind, M_bind, bind. rewrite Henabled. cbn [negb]. by rewrite Hrw.
Qed.

Lemma write_Ok_inv query o sink o' :
  StorageDistributed.write query o = Ok (sink, o') →
  StorageDistributed.write_enabled (StorageDistributed.this o) = true
  ∧ ∃ a d t s c,
      query = Some a
      ∧ heap (StorageDistributed.world o) !! a = Some (InsertQuery d t s c)
      ∧ sink = {| sink_storage := StorageDistributed.name (StorageDistributed.this o);
                  sink_query_ast := Some (length (heap (StorageDistributed.world o))) |}
      ∧ o' = {| StorageDistributed.this := StorageDistributed.this o;
                StorageDistributed.world :=
                  {| heap := heap (StorageDistributed.world o)
                             ++ [InsertQuery
                                   (StorageDistributed.remote_database (StorageDistributed.this o))
                                   (StorageDistributed.remote_table (StorageDistributed.this o))
                                   None c];
                     fs := fs (StorageDistributed.world o);
                     tasks := tasks (StorageDistributed.world o) |} |}.
Proof.
  intros Hwrite. destruct o as [self w].
  cbn [StorageDistributed.this StorageDistributed.world].
  destruct (StorageDistributed.write_enabled self) eqn:Henabled; last first.
  { by rewrite write_disabled in Hwrite. }
  split; [done|].
  destruct (rewriteQuery ASTInsertQuery.t query
              (StorageDistributed.remote_database self)
              (StorageDistributed.remote_table self) (heap w)) as [[p h']|e] eqn:Hrw.
  - apply rewriteQuery_Ok_inv in Hrw as (a & node & obj & -> & Ha & Hcast & _).
    destruct node; try done.
    rewrite (write_run a self w _ _ _ _ Henabled Ha) in Hwrite.
    injection Hwrite as <- <-. by eexists _, _, _, _, _.
  - by rewrite (write_Throw_of_rewrite query _ e) in Hwrite.
Qed.



(** X4. The stage tells the caller how many streams it got: for a cluster
    whose counts fit in [size_t], [read] reports [Complete] exactly when it
    returns one stream, and [WithMergeableState] when it returns none or
    several. *)
Theorem read_complete_iff_one_stream `{Collaborators}
    column_names query settings max_block_size threads
    (self : StorageDistributed.t) (w : World) database table children :
  Cluster.fits (StorageDistributed.cluster self) →
  heap w !! query = Some (SelectQuery database table children) →
  ∃ res processed_stage o',
    StorageDistributed.read column_names (Some query) settings max_block_size threads
      {| StorageDistributed.this := self; StorageDistributed.world := w |}
    = Ok (res, processed_stage, o')
    ∧ (processed_stage = Complete ↔ length res = 1)
    ∧ (processed_stage = WithMergeableState ↔ length res ≠ 1).
Proof.
  intros Hfits Hquery.
  eexists _, _, _. split; [by eapply read_run|].
  unfold StorageDistributed.read_remote_streams, StorageDistributed.read_local_streams.
  rewrite length_app, length_map, length_replicate.
  unfold StorageDistributed.read_stage, size_t_add.
  rewrite N.mod_small by exact Hfits.
  unfold Cluster.pools_size, Cluster.getLocalNodesNum.
  destruct (N.eqb_spec
              (N.of_nat (length (Cluster.pools (StorageDistributed.cluster self)))
               + Cluster.local_nodes_num (StorageDistributed.cluster self)) 1) as [Heq|Hne].
  - split; (split; [intros ?|intros ?]); try done; lia.
  - split; (split; [intros ?|intros ?]); try done; lia.
Qed.

Lemma read_complete_iff_one_stream_witness :
  ∃ res processed_stage o',
    StorageDistributed.read (H := Example.collaborators)
      ["UserID"] (Some 1) Example.settings 65536%N 4%N
      {| StorageDistributed.this := Example.table Example.two_remote true;
         StorageDistributed.world := Example.world |}
    = Ok (res, processed_stage, o')
    ∧ (processed_stage = Complete ↔ length res = 1)
    ∧ (processed_stage = WithMergeableState ↔ length res ≠ 1).
Proof.
  apply (read_complete_iff_one_stream (H := Example.collaborators) ["UserID"] 1
           Example.settings 65536%N 4%N (Example.table Example.two_remote true)
           Example.world (Some (Identifier "default" Database))
           (Some (Identifier "hits_all" Table)) [OtherNode "count()" []]);
    [by vm_compute | reflexivity].
Defined.

(** X5. What [read] touches. It adds exactly one object to the store, the
    retargeted copy of the query, and changes no object that was there, the
    caller's query among them; it leaves the file system, the task log and
    the table's monitors alone. Every remote stream is for a pool of the
    cluster and carries the text of the retargeted copy; every local stream
    executes that one copy. *)
Theorem read_touches_only_its_copy `{Collaborators}
    column_names query settings max_block_size threads
    (self : StorageDistributed.t) (w : World) database table children :
  heap w !! query = Some (SelectQuery database table children) →
  let copy :=
    SelectQuery (Some (Identifier (StorageDistributed.remote_database self) Database))
                (Some (Identifier (StorageDistributed.remote_table self) Table)) children in
  ∃ res processed_stage o',
    StorageDistributed.read column_names (Some query) settings max_block_size threads
      {| StorageDistributed.this := self; StorageDistributed.world := w |}
    = Ok (res, processed_stage, o')
    ∧ heap (StorageDistributed.world o') = heap w ++ [copy]
    ∧ heap (StorageDistributed.world o') !! query
      = Some (SelectQuery database table children)
    ∧ fs (StorageDistributed.world o') = fs w
    ∧ tasks (StorageDistributed.world o') = tasks w
    ∧ StorageDistributed.directory_monitors (StorageDistributed.this o')
      = StorageDistributed.directory_monitors self
    ∧ (∀ pool text s tables stage,
         RemoteBlockInputStream pool text s tables stage ∈ res →
         pool ∈ Cluster.pools (StorageDistributed.cluster self)
         ∧ text = queryToString copy)
    ∧ (∀ ast ctx stage,
         InterpreterSelectQuery_execute ast ctx stage ∈ res →
         ast = Some (length (heap w))
         ∧ heap (StorageDistributed.world o') !! length (heap w) = Some copy).
Proof.
  intros Hquery copy.
  eexists _, _, _. split; [by eapply read_run|].
  cbn [StorageDistributed.this StorageDistributed.world heap fs tasks
       StorageDistributed.directory_monitors StorageDistributed.set_external_tables].
  split; [done|].
  split; [rewrite lookup_app_l; [done|by eapply lookup_lt_Some]|].
  do 3 (split; [done|]).
  split.
  - intros pool text s tables stage [Hin|Hin]%elem_of_app.
    + unfold StorageDistributed.read_remote_streams in Hin.
      apply list_elem_of_fmap in Hin as (conn_pool & [= -> -> _ _ _] & Hpool). done.
    + unfold StorageDistributed.read_local_streams in Hin.
      by apply elem_of_replicate in Hin as [? _].
  - intros ast ctx stage [Hin|Hin]%elem_of_app.
    + unfold StorageDistributed.read_remote_streams in Hin.
      by apply list_elem_of_fmap in Hin as (conn_pool & ? & _).
    + unfold StorageDistributed.read_local_streams in Hin.
      apply elem_of_replicate in Hin as [[= -> _ _] _].
      split; [done|]. by rewrite list_lookup_middle.
Qed.

Lemma read_touches_only_its_copy_witness :
  let w := Example.world in
  let copy :=
    SelectQuery (Some (Identifier "shard_db" Database))
                (Some (Identifier "hits_local" Table)) [OtherNode "count()" []] in
  ∃ res processed_stage o',
    StorageDistributed.read (H := Example.collaborators)
      ["UserID"] (Some 1) Example.settings 65536%N 4%N
      {| StorageDistributed.this := Example.monitored_table;
         StorageDistributed.world := w |}
    = Ok (res, processed_stage, o')
    ∧ heap (StorageDistributed.world o') = heap w ++ [copy]
    ∧ heap (StorageDistributed.world o') !! 1 = Some Example.select_query
    ∧ fs (StorageDistributed.world o') = fs w
    ∧ tasks (StorageDistributed.world o') = tasks w
    ∧ StorageDistributed.directory_monitors (StorageDistributed.this o')
      = StorageDistributed.directory_monitors Example.monitored_table
    ∧ (∀ pool text s tables stage,
         RemoteBlockInputStream pool text s tables stage ∈ res →
         pool ∈ [7; 8]
         ∧ text = queryToString (Collaborators := Example.collaborators) copy)
    ∧ (∀ ast ctx stage,
         InterpreterSelectQuery_execute ast ctx stage ∈ res →
         ast = Some 3
         ∧ heap (StorageDistributed.world o') !! 3 = Some copy).
Proof.
  intros w copy.
  apply (read_touches_only_its_copy (H := Example.collaborators) ["UserID"] 1
           Example.settings 65536%N 4%N Example.monitored_table Example.world
           (Some (Identifier "default" Database)) (Some (Identifier "hits_all" Table))
           [OtherNode "count()" []]).
  reflexivity.
Defined.

Lemma foldl_external_tables_settings (l : list (string * StoragePtr)) (ctx : Context.t) :
  Context.settings
    (foldl (λ ctx it,
              match Context.tryGetExternalTable ctx it.1 with
              | None => Context.addExternalTable it.1 it.2 ctx
              | Some _ => ctx
              end) ctx l)
  = Context.settings ctx.
Proof.
  revert ctx. induction l as [|[k v] l IH]; intros ctx; [done|].
  cbn [foldl fst snd]. rewrite IH.
  by destruct (Context.tryGetExternalTable ctx k).
Qed.

(** X6. What the streams of one [read] are given. The remote streams and the
    context of the local executions get the same settings: the caller's, with
    [queue_max_wait_ms] replaced by its saturation against
    [limits.max_execution_time]. The local context holds the tables of the
    table's context together with the registered external tables, and on a
    name both have the context's table stays. The table's own context is not
    changed. *)
Theorem read_hands_on_settings_and_tables `{Collaborators}
    column_names query settings max_block_size threads
    (self : StorageDistributed.t) (w : World) database table children :
  heap w !! query = Some (SelectQuery database table children) →
  let new_settings :=
    Settings.Build
      (Cluster_saturate (Settings.queue_max_wait_ms settings)
                        (Settings.limits_max_execution_time settings))
      (Settings.limits_max_execution_time settings) in
  ∃ res processed_stage o',
    StorageDistributed.read column_names (Some query) settings max_block_size threads
      {| StorageDistributed.this := self; StorageDistributed.world := w |}
    = Ok (res, processed_stage, o')
    ∧ StorageDistributed.context (StorageDistributed.this o')
      = StorageDistributed.context self
    ∧ (∀ pool text s tables stage,
         RemoteBlockInputStream pool text s tables stage ∈ res → s = new_settings)
    ∧ (∀ ast ctx stage,
         InterpreterSelectQuery_execute ast ctx stage ∈ res →
         Context.settings ctx = new_settings
         ∧ Context.external_tables ctx
           = Context.external_tables (StorageDistributed.context self)
             ∪ StorageDistributed.external_tables self
         ∧ ∀ table_name storage,
             Context.tryGetExternalTable (StorageDistributed.context self) table_name
               = Some storage →
             Context.tryGetExternalTable ctx table_name = Some storage).
Proof.
  intros Hquery new_settings.
  eexists _, _, _. split; [by eapply read_run|].
  split; [done|]. split.
  - intros pool text s tables stage [Hin|Hin]%elem_of_app.
    + unfold StorageDistributed.read_remote_streams in Hin.
      apply list_elem_of_fmap in Hin as (conn_pool & [= _ _ -> _ _] & _). done.
    + unfold StorageDistributed.read_local_streams in Hin.
      by apply elem_of_replicate in Hin as [? _].
  - intros ast ctx stage [Hin|Hin]%elem_of_app.
    + unfold StorageDistributed.read_remote_streams in Hin.
      by apply list_elem_of_fmap in Hin as (conn_pool & ? & _).
    + unfold StorageDistributed.read_local_streams in Hin.
      apply elem_of_replicate in Hin as [[= _ -> _] _].
      split; [|split].
      * unfold StorageDistributed.read_local_context.
        by rewrite foldl_external_tables_settings.
      * apply read_local_context_tables.
      * intros table_name storage Hctx. unfold Context.tryGetExternalTable in *.
        by rewrite read_local_context_tables, lookup_union, Hctx, union_Some_l.
Qed.

Lemma read_hands_on_settings_and_tables_witness :
  let self := Example.table Example.two_remote_one_local true in
  let new_settings := Settings.Build 5000 0 in
  ∃ res processed_stage o',
    StorageDistributed.read (H := Example.collaborators)
      ["UserID"] (Some 1) Example.settings 65536%N 4%N
      {| StorageDistributed.this := self; StorageDistributed.world := Example.world |}
    = Ok (res, processed_stage, o')
    ∧ StorageDistributed.context (StorageDistributed.this o') = Example.context
    ∧ (∀ pool text s tables stage,
         RemoteBlockInputStream pool text s tables stage ∈ res → s = new_settings)
    ∧ (∀ ast ctx stage,
         InterpreterSelectQuery_execute ast ctx stage ∈ res →
         Context.settings ctx = new_settings
         ∧ Context.external_tables ctx
           = Context.external_tables Example.context
             ∪ StorageDistributed.external_tables self
         ∧ ∀ table_name storage,
             Context.tryGetExternalTable Example.context table_name = Some storage →
             Context.tryGetExternalTable ctx table_name = Some storage).
Proof.
  intros self new_settings.
  apply (read_hands_on_settings_and_tables (H := Example.collaborators) ["UserID"] 1
           Example.settings 65536%N 4%N self Example.world
           (Some (Identifier "default" Database)) (Some (Identifier "hits_all" Table))
           [OtherNode "count()" []]).
  reflexivity.
Defined.

(** X7. Registered external tables are used once. Of two [read] calls in a
    row, the second hands no external table to its remote streams and runs
    its local executions with the tables of the table's own context only; it
    returns as many streams, at the same stage, as the first. *)
Theorem read_twice_second_has_no_external_tables `{Collaborators}
    column_names query1 query2 settings max_block_size threads
    (self : StorageDistributed.t) (w : World) d1 t1 c1 d2 t2 c2 :
  heap w !! query1 = Some (SelectQuery d1 t1 c1) →
  heap w !! query2 = Some (SelectQuery d2 t2 c2) →
  ∃ res1 stage1 o1 res2 stage2 o2,
    StorageDistributed.read column_names (Some query1) settings max_block_size threads
      {| StorageDistributed.this := self; StorageDistributed.world := w |}
    = Ok (res1, stage1, o1)
    ∧ StorageDistributed.read column_names (Some query2) settings max_block_size threads o1
      = Ok (res2, stage2, o2)
    ∧ (∀ pool text s tables stage,
         RemoteBlockInputStream pool text s tables stage ∈ res2 → tables = ∅)
    ∧ (∀ ast ctx stage,
         InterpreterSelectQuery_execute ast ctx stage ∈ res2 →
         Context.external_tables ctx
         = Context.external_tables (StorageDistributed.context self))
    ∧ stage2 = stage1
    ∧ length res2 = length res1.
Proof.
  intros Hq1 Hq2.
  eexists _, _, _, _, _, _. split; [by eapply read_run|].
  split.
  { eapply read_run. cbn [heap].
    rewrite lookup_app_l; [exact Hq2|by eapply lookup_lt_Some]. }
  split; [|split; [|split]].
  - intros pool text s tables stage [Hin|Hin]%elem_of_app.
    + unfold StorageDistributed.read_remote_streams in Hin.
      apply list_elem_of_fmap in Hin as (conn_pool & [= _ _ _ -> _] & _). done.
    + unfold StorageDistributed.read_local_streams in Hin.
      by apply elem_of_replicate in Hin as [? _].
  - intros ast ctx stage [Hin|Hin]%elem_of_app.
    + unfold StorageDistributed.read_remote_streams in Hin.
      by apply list_elem_of_fmap in Hin as (conn_pool & ? & _).
    + unfold StorageDistributed.read_local_streams in Hin.
      apply elem_of_replicate in Hin as [[= _ -> _] _].
      rewrite read_local_context_tables.
      cbn [StorageDistributed.external_tables StorageDistributed.set_external_tables
           StorageDistributed.context].
      by rewrite (right_id_L ∅ (∪)).
  - reflexivity.
  - unfold StorageDistributed.read_remote_streams, StorageDistributed.read_local_streams.
    by rewrite !length_app, !length_map, !length_replicate.
Qed.

Lemma read_twice_second_has_no_external_tables_witness :
  ∃ res1 stage1 o1 res2 stage2 o2,
    StorageDistributed.read (H := Example.collaborators)
      ["UserID"] (Some 1) Example.settings 65536%N 4%N
      {| StorageDistributed.this := Example.table Example.two_remote_one_local true;
         StorageDistributed.world := Example.world |}
    = Ok (res1, stage1, o1)
    ∧ StorageDistributed.read (H := Example.collaborators)
        ["UserID"] (Some 1) Example.settings 65536%N 4%N o1
      = Ok (res2, stage2, o2)
    ∧ (∀ pool text s tables stage,
         RemoteBlockInputStream pool text s tables stage ∈ res2 → tables = ∅)
    ∧ (∀ ast ctx stage,
         InterpreterSelectQuery_execute ast ctx stage ∈ res2 →
         Context.external_tables ctx = Context.external_tables Example.context)
    ∧ stage2 = stage1
    ∧ length res2 = length res1.
Proof.
  apply (read_twice_second_has_no_external_tables (H := Example.collaborators)
           ["UserID"] 1 1 Example.settings 65536%N 4%N
           (Example.table Example.two_remote_one_local true) Example.world
           (Some (Identifier "default" Database)) (Some (Identifier "hits_all" Table))
           [OtherNode "count()" []]
           (Some (Identifier "default" Database)) (Some (Identifier "hits_all" Table))
           [OtherNode "count()" []]);
    reflexivity.
Defined.

(** ** Monitors: what creating and requiring them does to the mapping *)

(** X8. [createDirectoryMonitor] never replaces a monitor. It always
    returns, every entry of the mapping is still there afterwards, and the
    name has an entry. When the name had one already the table is unchanged
    and the monitor that was built for the call is destroyed at once: its
    task is started and stopped, and nothing else is logged. *)
Theorem createDirectoryMonitor_never_replaces (name : string) (o : StorageDistributed.Obj) :
  let monitors o := StorageDistributed.directory_monitors (StorageDistributed.this o) in
  let log o := tasks (StorageDistributed.world o) in
  ∃ o',
    StorageDistributed.createDirectoryMonitor name o = Ok (tt, o')
    ∧ (∀ key monitor, monitors o !! key = Some monitor → monitors o' !! key = Some monitor)
    ∧ is_Some (monitors o' !! name)
    ∧ (is_Some (monitors o !! name) →
       StorageDistributed.this o' = StorageDistributed.this o
       ∧ log o' = log o ++ [TaskStarted (length (log o)) name;
                            TaskStopped (length (log o))])
    ∧ heap (StorageDistributed.world o') = heap (StorageDistributed.world o)
    ∧ fs (StorageDistributed.world o') = fs (StorageDistributed.world o).
Proof.
  destruct o as [self w]. intros monitors log. subst monitors log.
  cbn [StorageDistributed.this StorageDistributed.world].
  destruct (StorageDistributed.directory_monitors self !! name) as [monitor|] eqn:Hname.
  - eexists. split; [by eapply createDirectoryMonitor_taken|].
    cbn [StorageDistributed.this StorageDistributed.world heap fs tasks].
    split; [done|]. split; [by eexists|].
    split; [|done]. intros _. split; [done|]. by rewrite <- app_assoc.
  - eexists. split; [by eapply createDirectoryMonitor_fresh|].
    cbn [StorageDistributed.this StorageDistributed.world heap fs tasks
         StorageDistributed.directory_monitors StorageDistributed.set_directory_monitors].
    split.
    { intros key monitor Hkey. rewrite lookup_insert_ne; [done|]. congruence. }
    split; [rewrite lookup_insert_eq; by eexists|].
    split; [|done]. by intros [? ?].
Qed.

Lemma createDirectoryMonitor_never_replaces_witness :
  let monitors o := StorageDistributed.directory_monitors (StorageDistributed.this o) in
  let log o := tasks (StorageDistributed.world o) in
  let o := Example.monitored in
  ∃ o',
    StorageDistributed.createDirectoryMonitor "shard1" o = Ok (tt, o')
    ∧ (∀ key monitor, monitors o !! key = Some monitor → monitors o' !! key = Some monitor)
    ∧ is_Some (monitors o' !! "shard1")
    ∧ (is_Some (monitors o !! "shard1") →
       StorageDistributed.this o' = StorageDistributed.this o
       ∧ log o' = [TaskStarted 0 "shard1"] ++ [TaskStarted 1 "shard1"; TaskStopped 1])
    ∧ heap (StorageDistributed.world o') = heap (StorageDistributed.world o)
    ∧ fs (StorageDistributed.world o') = fs (StorageDistributed.world o).
Proof. exact (createDirectoryMonitor_never_replaces "shard1" Example.monitored). Defined.

Lemma set_directory_monitors_twice v v' self :
  StorageDistributed.set_directory_monitors v (StorageDistributed.set_directory_monitors v' self)
  = StorageDistributed.set_directory_monitors v self.
Proof. reflexivity. Qed.

(** One [requireDirectoryMonitor], with the state it leaves written out. *)
Lemma requireDirectoryMonitor_step name self w :
  ∃ monitors' started,
    StorageDistributed.requireDirectoryMonitor name
      {| StorageDistributed.this := self; StorageDistributed.world := w |}
    = Ok (tt,
          {| StorageDistributed.this :=
               StorageDistributed.set_directory_monitors monitors' self;
             StorageDistributed.world :=
               {| heap := heap w; fs := fs w; tasks := tasks w ++ started |} |})
    ∧ dom monitors' = dom (StorageDistributed.directory_monitors self) ∪ {[name]}
    ∧ (∀ key monitor,
         StorageDistributed.directory_monitors self !! key = Some monitor →
         monitors' !! key = Some monitor)
    ∧ size monitors' = size (StorageDistributed.directory_monitors self) + length started
    ∧ Forall (λ event, ∃ id, event = TaskStarted id name) started.
Proof.
  destruct (StorageDistributed.directory_monitors self !! name) as [monitor|] eqn:Hname.
  - exists (StorageDistributed.directory_monitors self), [].
    split.
    { rewrite (requireDirectoryMonitor_present name self w monitor Hname).
      rewrite self_set_directory_monitors, app_nil_r. by destruct w. }
    split.
    { apply (elem_of_dom_2 (D := gset string)) in Hname. set_solver. }
    split; [done|]. split; [cbn; lia|constructor].
  - eexists _, [_]. split.
    { rewrite requireDirectoryMonitor_absent by done.
      by apply createDirectoryMonitor_fresh. }
    split; [rewrite dom_insert_L; set_solver|].
    split.
    { intros key monitor Hkey. rewrite lookup_insert_ne; [done|]. congruence. }
    split.
    { rewrite map_size_insert_None by done. cbn. lia. }
    repeat constructor. by eexists.
Qed.

(** X9. Requiring the monitors of a list of shards, in any order and with
    repetitions, always returns. The mapping then has the keys it had
    together with the names of the list; every monitor it held is still
    there; one task was started for each entry it gained and none was
    stopped; nothing else in the table, the store or the file system
    changed. *)
Theorem requireDirectoryMonitor_for_each (names : list string) (o : StorageDistributed.Obj) :
  let monitors o := StorageDistributed.directory_monitors (StorageDistributed.this o) in
  ∃ o' started,
    for_each names StorageDistributed.requireDirectoryMonitor o = Ok (tt, o')
    ∧ dom (monitors o') = dom (monitors o) ∪ list_to_set names
    ∧ (∀ key monitor, monitors o !! key = Some monitor → monitors o' !! key = Some monitor)
    ∧ tasks (StorageDistributed.world o') = tasks (StorageDistributed.world o) ++ started
    ∧ size (monitors o') = size (monitors o) + length started
    ∧ Forall (λ event, ∃ id name, event = TaskStarted id name ∧ name ∈ names) started
    ∧ StorageDistributed.same_but_monitors (StorageDistributed.this o) (StorageDistributed.this o')
    ∧ heap (StorageDistributed.world o') = heap (StorageDistributed.world o)
    ∧ fs (StorageDistributed.world o') = fs (StorageDistributed.world o).
Proof.
  intros monitors. subst monitors. revert o.
  induction names as [|name names IH]; intros [self w].
  - exists {| StorageDistributed.this := self; StorageDistributed.world := w |}, [].
    cbn [StorageDistributed.this StorageDistributed.world list_to_set].
    split; [done|]. split; [set_solver|]. split; [done|].
    split; [by rewrite app_nil_r|]. split; [cbn; lia|]. split; [constructor|].
    split; [|done].
    unfold StorageDistributed.same_but_monitors. by rewrite self_set_directory_monitors.
  - destruct (requireDirectoryMonitor_step name self w)
      as (monitors1 & started1 & Hstep & Hdom1 & Hkeep1 & Hsize1 & Hstarted1).
    destruct (IH {| StorageDistributed.this :=
                      StorageDistributed.set_directory_monitors monitors1 self;
                    StorageDistributed.world :=
                      {| heap := heap w; fs := fs w; tasks := tasks w ++ started1 |} |})
      as (o' & started & Hrest & Hdom & Hkeep & Htasks & Hsize & Hstarted & Hsame & Hheap & Hfs).
    cbn [StorageDistributed.this StorageDistributed.world heap fs tasks
         StorageDistributed.directory_monitors StorageDistributed.set_directory_monitors]
      in Hdom, Hkeep, Htasks, Hsize, Hsame, Hheap, Hfs.
    exists o', (started1 ++ started).
    cbn [StorageDistributed.this StorageDistributed.world for_each list_to_set].
    split; [by erewrite bind_Ok by exact Hstep|].
    split; [rewrite Hdom, Hdom1; set_solver|].
    split; [intros key monitor Hkey; by apply Hkeep, Hkeep1|].
    split; [by rewrite Htasks, app_assoc|].
    split; [rewrite Hsize, Hsize1, length_app; lia|].
    split.
    { apply Forall_app. split.
      - eapply Forall_impl; [exact Hstarted1|].
        intros event [id ->]. exists id, name. split; [done|]. by left.
      - eapply Forall_impl; [exact Hstarted|].
        intros event (id & n & -> & Hn). exists id, n. split; [done|]. by right. }
    split; [|done].
    unfold StorageDistributed.same_but_monitors in *.
    rewrite Hsame at 1. by rewrite set_directory_monitors_twice.
Qed.

Lemma requireDirectoryMonitor_for_each_witness :
  let monitors o := StorageDistributed.directory_monitors (StorageDistributed.this o) in
  let o := Example.monitored in
  let names := ["shard2"; "shard1"; "shard2"] in
  ∃ o' started,
    for_each names StorageDistributed.requireDirectoryMonitor o = Ok (tt, o')
    ∧ dom (monitors o') = dom (monitors o) ∪ list_to_set names
    ∧ (∀ key monitor, monitors o !! key = Some monitor → monitors o' !! key = Some monitor)
    ∧ tasks (StorageDistributed.world o') = [TaskStarted 0 "shard1"] ++ started
    ∧ size (monitors o') = size (monitors o) + length started
    ∧ Forall (λ event, ∃ id name, event = TaskStarted id name ∧ name ∈ names) started
    ∧ StorageDistributed.same_but_monitors (StorageDistributed.this o) (StorageDistributed.this o')
    ∧ heap (StorageDistributed.world o') = heap (StorageDistributed.world o)
    ∧ fs (StorageDistributed.world o') = fs (StorageDistributed.world o).
Proof.
  exact (requireDirectoryMonitor_for_each ["shard2"; "shard1"; "shard2"] Example.monitored).
Defined.

(** ** Monitors and running tasks *)

Lemma log_ok_started log id name :
  log_ok log → TaskStarted id name ∈ log → log !! id = Some (TaskStarted id name).
Proof.
  intros Hlog [i Hi]%list_elem_of_lookup.
  pose proof (Hlog i _ Hi) as Hid. cbn in Hid. by subst.
Qed.

Lemma log_ok_stopped log id :
  log_ok log → TaskStopped id ∈ log → id < length log.
Proof.
  intros Hlog [i Hi]%list_elem_of_lookup.
  pose proof (Hlog i _ Hi) as Hid. cbn in Hid.
  apply lookup_lt_Some in Hi. lia.
Qed.

Lemma log_ok_snoc_started log name :
  log_ok log → log_ok (log ++ [TaskStarted (length log) name]).
Proof.
  intros Hlog i event [Hi|[Hge Hi]]%lookup_app_Some; [by apply Hlog|].
  apply list_lookup_singleton_Some in Hi as [Hi <-]. cbn. lia.
Qed.

Lemma log_ok_app_stopped log ids :
  log_ok log → Forall (λ id, id < length log) ids →
  log_ok (log ++ map TaskStopped ids).
Proof.
  intros Hlog Hids i event [Hi|[Hge Hi]]%lookup_app_Some; [by apply Hlog|].
  apply list_lookup_fmap_Some in Hi as (id & -> & Hi).
  apply list_elem_of_lookup_2 in Hi.
  rewrite Forall_forall in Hids. specialize (Hids id Hi). cbn. lia.
Qed.

(** The invariant after a monitor was built and filed under a free name. *)
Lemma monitors_ok_insert name self w :
  monitors_ok {| StorageDistributed.this := self; StorageDistributed.world := w |} →
  StorageDistributed.directory_monitors self !! name = None →
  monitors_ok
    {| StorageDistributed.this :=
         StorageDistributed.set_directory_monitors
           (<[name := DirectoryMonitor.Build (length (tasks w)) name
                        (StorageDistributed.path self ++ [name])]>
              (StorageDistributed.directory_monitors self)) self;
       StorageDistributed.world :=
         {| heap := heap w; fs := fs w;
            tasks := tasks w ++ [TaskStarted (length (tasks w)) name] |} |}.
Proof.
  intros (Hlog & Hentries & Hrunning) Hfree.
  cbn [StorageDistributed.this StorageDistributed.world] in Hlog, Hentries, Hrunning.
  unfold monitors_ok.
  cbn [StorageDistributed.this StorageDistributed.world tasks
       StorageDistributed.directory_monitors StorageDistributed.set_directory_monitors
       StorageDistributed.path].
  split; [by apply log_ok_snoc_started|]. split.
  - intros key monitor [[<- <-]|[Hne Hkey]]%lookup_insert_Some.
    + cbn [DirectoryMonitor.id]. split; [done|].
      split; [by rewrite list_lookup_middle|].
      intros [Hin|Hin]%elem_of_app.
      * apply (log_ok_stopped _ _ Hlog) in Hin. lia.
      * by apply list_elem_of_singleton in Hin.
    + destruct (Hentries key monitor Hkey) as (Heq & Hstart & Hnostop).
      split; [done|]. split; [by apply lookup_app_l_Some|].
      intros [Hin|Hin]%elem_of_app; [done|].
      by apply list_elem_of_singleton in Hin.
  - intros id [[started_name Hstart] Hnostop].
    apply elem_of_app in Hstart as [Hstart|Hstart].
    + destruct (Hrunning id) as (key & monitor & Hkey & Hid).
      { split; [by eexists|]. intros Hin. apply Hnostop, elem_of_app. by left. }
      exists key, monitor. split; [|done].
      rewrite lookup_insert_ne; [done|]. congruence.
    + apply list_elem_of_singleton in Hstart as [= -> ->].
      eexists _, _. split; [apply lookup_insert_eq|done].
Qed.

(** The invariant after a monitor was built and dropped again. *)
Lemma monitors_ok_start_stop name self w :
  monitors_ok {| StorageDistributed.this := self; StorageDistributed.world := w |} →
  monitors_ok
    {| StorageDistributed.this := self;
       StorageDistributed.world :=
         {| heap := heap w; fs := fs w;
            tasks := (tasks w ++ [TaskStarted (length (tasks w)) name])
                       ++ [TaskStopped (length (tasks w))] |} |}.
Proof.
  intros (Hlog & Hentries & Hrunning).
  cbn [StorageDistributed.this StorageDistributed.world] in Hlog, Hentries, Hrunning.
  unfold monitors_ok. cbn [StorageDistributed.this StorageDistributed.world tasks].
  split; [|split].
  - apply (log_ok_app_stopped _ [length (tasks w)]).
    + by apply log_ok_snoc_started.
    + constructor; [|constructor]. rewrite length_app. cbn. lia.
  - intros key monitor Hkey.
    destruct (Hentries key monitor Hkey) as (Heq & Hstart & Hnostop).
    split; [done|]. split; [by do 2 apply lookup_app_l_Some|].
    intros [[Hin|Hin]%elem_of_app|Hin]%elem_of_app; [done| |].
    + by apply list_elem_of_singleton in Hin.
    + apply list_elem_of_singleton in Hin as [= Hid].
      apply lookup_lt_Some in Hstart. lia.
  - intros id [[started_name Hstart] Hnostop].
    apply elem_of_app in Hstart as [[Hstart|Hstart]%elem_of_app|Hstart].
    + apply Hrunning. split; [by eexists|].
      intros Hin. apply Hnostop. apply elem_of_app. left. apply elem_of_app. by left.
    + apply list_elem_of_singleton in Hstart as [= -> ->].
      destruct Hnostop. apply elem_of_app. right. by apply list_elem_of_singleton.
    + by apply list_elem_of_singleton in Hstart.
Qed.

(** [read] and [write] leave alone what the invariant is about. *)
Lemma monitors_ok_same o o' :
  StorageDistributed.path (StorageDistributed.this o')
    = StorageDistributed.path (StorageDistributed.this o) →
  StorageDistributed.directory_monitors (StorageDistributed.this o')
    = StorageDistributed.directory_monitors (StorageDistributed.this o) →
  tasks (StorageDistributed.world o') = tasks (StorageDistributed.world o) →
  monitors_ok o → monitors_ok o'.
Proof. unfold monitors_ok. by intros -> -> ->. Qed.

(** X10. The methods keep the monitors and the running tasks in step. From
    a state where every monitor of the mapping is filed under its own name,
    watches its directory below the table's path and owns a running task,
    and where no task runs without a monitor, [createDirectoryMonitor] and
    [requireDirectoryMonitor] return a state of that kind, and so do [read]
    and [write] whenever they return. *)
Theorem methods_keep_monitors_ok `{Collaborators} (o : StorageDistributed.Obj) :
  monitors_ok o →
  (∀ name, ∃ o', StorageDistributed.createDirectoryMonitor name o = Ok (tt, o')
                 ∧ monitors_ok o')
  ∧ (∀ name, ∃ o', StorageDistributed.requireDirectoryMonitor name o = Ok (tt, o')
                   ∧ monitors_ok o')
  ∧ (∀ column_names query settings max_block_size threads r o',
       StorageDistributed.read column_names query settings max_block_size threads o
         = Ok (r, o') →
       monitors_ok o')
  ∧ (∀ query sink o', StorageDistributed.write query o = Ok (sink, o') → monitors_ok o').
Proof.
  destruct o as [self w]. intros Hok.
  assert (Hcreate : ∀ name,
    ∃ o', StorageDistributed.createDirectoryMonitor name
            {| StorageDistributed.this := self; StorageDistributed.world := w |}
          = Ok (tt, o') ∧ monitors_ok o').
  { intros name.
    destruct (StorageDistributed.directory_monitors self !! name) as [monitor|] eqn:Hname.
    - eexists. split; [by eapply createDirectoryMonitor_taken|].
      by apply monitors_ok_start_stop.
    - eexists. split; [by eapply createDirectoryMonitor_fresh|].
      by apply monitors_ok_insert. }
  split; [exact Hcreate|]. split; [|split].
  - intros name.
    destruct (StorageDistributed.directory_monitors self !! name) as [monitor|] eqn:Hname.
    + eexists. split; [by eapply requireDirectoryMonitor_present|done].
    + rewrite requireDirectoryMonitor_absent by done. apply Hcreate.
  - intros cols query settings mbs th [res stage] o' Hread.
    pose proof Hread as Hinv.
    apply read_Ok_inv in Hinv as (a & d & t & c & -> & Ha).
    cbn [StorageDistributed.world] in Ha.
    rewrite (read_run cols a settings mbs th self w d t c Ha) in Hread.
    injection Hread as _ _ <-. by eapply monitors_ok_same.
  - intros query sink o' Hwrite.
    apply write_Ok_inv in Hwrite as (_ & a & d & t & s & c & _ & _ & _ & ->).
    by eapply monitors_ok_same.
Qed.

(** The example state with the monitor of "shard1" is of that kind. *)
Lemma example_monitored_ok : monitors_ok Example.monitored.
Proof.
  pose proof (monitors_ok_insert "shard1"
                (Example.table Example.two_remote_one_local true)
                {| heap := heap Example.world; fs := Example.disk; tasks := [] |}) as Hok.
  apply Hok.
  - split; [|split].
    + intros i event Hi. cbn in Hi. by rewrite lookup_nil in Hi.
    + intros name monitor Hname. cbn in Hname. by rewrite lookup_empty in Hname.
    + intros id [[name Hin] _]. cbn in Hin. by apply elem_of_nil in Hin.
  - apply lookup_empty.
Qed.

Lemma methods_keep_monitors_ok_witness :
  let o := Example.monitored in
  (∀ name, ∃ o', StorageDistributed.createDirectoryMonitor name o = Ok (tt, o')
                 ∧ monitors_ok o')
  ∧ (∀ name, ∃ o', StorageDistributed.requireDirectoryMonitor name o = Ok (tt, o')
                   ∧ monitors_ok o')
  ∧ (∀ column_names query settings max_block_size threads r o',
       StorageDistributed.read (H := Example.collaborators)
         column_names query settings max_block_size threads o = Ok (r, o') →
       monitors_ok o')
  ∧ (∀ query sink o', StorageDistributed.write query o = Ok (sink, o') → monitors_ok o').
Proof.
  exact (methods_keep_monitors_ok (H := Example.collaborators) Example.monitored
           example_monitored_ok).
Defined.

Lemma monitors_ok_monitors_for (names : list string) :
  ∀ self w,
    monitors_ok {| StorageDistributed.this := self; StorageDistributed.world := w |} →
    NoDup names →
    (∀ name, name ∈ names → StorageDistributed.directory_monitors self !! name = None) →
    monitors_ok
      {| StorageDistributed.this :=
           StorageDistributed.set_directory_monitors
             (foldl (λ m kv, <[kv.1 := kv.2]> m) (StorageDistributed.directory_monitors self)
                    (monitors_for (StorageDistributed.path self) (length (tasks w)) names))
             self;
         StorageDistributed.world :=
           {| heap := heap w; fs := fs w;
              tasks := tasks w ++ tasks_for (length (tasks w)) names |} |}.
Proof.
  induction names as [|name names IH]; intros self w Hok Hnodup Hfree.
  - cbn [monitors_for tasks_for foldl].
    rewrite self_set_directory_monitors, app_nil_r. by destruct w.
  - apply NoDup_cons in Hnodup as [Hnotin Hnodup].
    pose proof (monitors_ok_insert name self w Hok (Hfree name ltac:(by left))) as Hok1.
    apply IH in Hok1; [|done|].
    + cbn [StorageDistributed.this StorageDistributed.world heap fs tasks
           StorageDistributed.path StorageDistributed.directory_monitors
           StorageDistributed.set_directory_monitors] in Hok1.
      rewrite length_app, Nat.add_1_r, <- app_assoc in Hok1. exact Hok1.
    + intros other Hother.
      cbn [StorageDistributed.directory_monitors StorageDistributed.set_directory_monitors].
      rewrite lookup_insert_ne by (intros ->; contradiction).
      apply Hfree. by right.
Qed.

(** X11. The constructor sets the invariant up. Started on a well-formed
    log with no task running, with a usable spool path, it returns a table
    in which every monitor is filed under its own name, watches its
    directory below the table's path and owns a running task, and no other
    task runs. *)
Theorem constructor_establishes_monitors_ok `{Collaborators}
    name_ columns_ remote_database_ remote_table_ cluster_ context_ sharding_key_ data_path_
    (w : World) :
  sharding_key_readable (heap w) sharding_key_ →
  spool_usable (fs w) (data_path_ ++ [escapeForFileName name_]) →
  log_ok (tasks w) →
  (∀ id, ¬ task_running (tasks w) id) →
  ∃ self w',
    StorageDistributed.StorageDistributed name_ columns_ remote_database_ remote_table_
      cluster_ context_ sharding_key_ data_path_ w = Ok (self, w')
    ∧ monitors_ok {| StorageDistributed.this := self; StorageDistributed.world := w' |}.
Proof.
  intros Hkey Husable Hlog Hidle.
  destruct (constructor_run name_ columns_ remote_database_ remote_table_ cluster_ context_
              sharding_key_ data_path_ w Hkey Husable) as [key_column Hrun].
  cbn zeta in Hrun. eexists _, _. split; [exact Hrun|].
  set (self0 := StorageDistributed.member_initializers name_ columns_ remote_database_
                  remote_table_ cluster_ context_ sharding_key_ key_column data_path_).
  set (spool := data_path_ ++ [escapeForFileName name_]).
  set (found := subdirectories (<[spool := Directory]> (fs w)) spool
                  (directory_entries (<[spool := Directory]> (fs w)) spool)).
  assert (Hbase : monitors_ok {| StorageDistributed.this := self0;
                                 StorageDistributed.world := w |}).
  { split; [exact Hlog|]. split.
    - intros name monitor Hname. cbn in Hname. by rewrite lookup_empty in Hname.
    - intros id Hid. by destruct (Hidle id). }
  pose proof (monitors_ok_monitors_for found self0 w Hbase
                (NoDup_subdirectories _ _) (λ name _, lookup_empty name)) as Hok.
  by eapply monitors_ok_same; [| | |exact Hok].
Qed.

Lemma constructor_establishes_monitors_ok_witness :
  ∃ self w',
    StorageDistributed.StorageDistributed (H := Example.collaborators)
      "hits_all" [("UserID", "UInt64")] "shard_db" "hits_local"
      Example.two_remote_one_local Example.context nullptr ["data"; "default"] Example.world
    = Ok (self, w')
    ∧ monitors_ok {| StorageDistributed.this := self; StorageDistributed.world := w' |}.
Proof.
  apply (constructor_establishes_monitors_ok (H := Example.collaborators)
           "hits_all" [("UserID", "UInt64")] "shard_db" "hits_local"
           Example.two_remote_one_local Example.context nullptr ["data"; "default"]
           Example.world).
  - by left.
  - left. vm_compute. reflexivity.
  - intros i event Hi. cbn in Hi. by rewrite lookup_nil in Hi.
  - intros id [[name Hin] _]. cbn in Hin. by apply elem_of_nil in Hin.
Defined.

(** X12. [shutdown] leaves no task behind. From a state where the monitors
    and the running tasks are in step, it stops every running task: no task
    runs afterwards, the (empty) mapping and the log are in step again, and
    a second [shutdown] changes nothing. *)
Theorem shutdown_stops_every_task (o : StorageDistributed.Obj) :
  monitors_ok o →
  ∃ o',
    StorageDistributed.shutdown o = Ok (tt, o')
    ∧ (∀ id, ¬ task_running (tasks (StorageDistributed.world o')) id)
    ∧ monitors_ok o'
    ∧ StorageDistributed.shutdown o' = Ok (tt, o').
Proof.
  destruct o as [self w]. intros (Hlog & Hentries & Hrunning).
  cbn [StorageDistributed.this StorageDistributed.world] in Hlog, Hentries, Hrunning.
  eexists. split; [apply shutdown_run|].
  cbn [StorageDistributed.this StorageDistributed.world tasks].
  set (monitors := map snd (map_to_list (StorageDistributed.directory_monitors self))).
  assert (Hmonitors : ∀ monitor, monitor ∈ monitors ↔
            ∃ name, StorageDistributed.directory_monitors self !! name = Some monitor).
  { intros monitor. subst monitors. rewrite list_elem_of_fmap. split.
    - intros ([name m] & -> & Hin). exists name. by apply elem_of_map_to_list.
    - intros [name Hname]. exists (name, monitor). split; [done|].
      by apply elem_of_map_to_list. }
  assert (Hidle : ∀ id,
            ¬ task_running
                (tasks w ++ map (λ m, TaskStopped (DirectoryMonitor.id m)) monitors) id).
  { intros id [[name Hstart] Hnostop].
    apply elem_of_app in Hstart as [Hstart|Hstart]; last first.
    { by apply list_elem_of_fmap in Hstart as (m & ? & _). }
    destruct (Hrunning id) as (key & monitor & Hkey & <-).
    { split; [by eexists|]. intros Hin. apply Hnostop, elem_of_app. by left. }
    apply Hnostop, elem_of_app. right.
    apply list_elem_of_fmap. exists monitor. split; [done|].
    apply Hmonitors. by exists key. }
  split; [exact Hidle|]. split.
  - split; [|split].
    + cbn [StorageDistributed.this StorageDistributed.world tasks].
      rewrite <- (map_map DirectoryMonitor.id TaskStopped).
      apply log_ok_app_stopped; [done|].
      apply Forall_forall. intros id (monitor & -> & Hin)%list_elem_of_fmap.
      apply Hmonitors in Hin as [name Hname].
      destruct (Hentries name monitor Hname) as (_ & Hstart & _).
      by eapply lookup_lt_Some.
    + intros name monitor Hname. cbn in Hname. by rewrite lookup_empty in Hname.
    + intros id Hid. by destruct (Hidle id).
  - rewrite shutdown_run.
    cbn [StorageDistributed.directory_monitors StorageDistributed.set_directory_monitors
         heap fs tasks].
    rewrite map_to_list_empty. cbn [map]. by rewrite app_nil_r.
Qed.

Lemma shutdown_stops_every_task_witness :
  ∃ o',
    StorageDistributed.shutdown Example.monitored = Ok (tt, o')
    ∧ (∀ id, ¬ task_running (tasks (StorageDistributed.world o')) id)
    ∧ monitors_ok o'
    ∧ StorageDistributed.shutdown o' = Ok (tt, o').
Proof. exact (shutdown_stops_every_task Example.monitored example_monitored_ok). Defined.

(** ** Construction: when it fails, and what the table is like *)

Lemma createDirectoryMonitors_Throw (self : StorageDistributed.t) (w : World) e :
  File_createDirectory (StorageDistributed.path self) (fs w) = Throw e →
  StorageDistributed.createDirectoryMonitors
    {| StorageDistributed.this := self; StorageDistributed.world := w |} = Throw e.
Proof.
  intros Hcreate.
  unfold StorageDistributed.createDirectoryMonitors, StorageDistributed.get_this,
    StorageDistributed.in_world, in_fs, zoom.
  unfold mbind, M_bind, bind. cbn [StorageDistributed.this StorageDistributed.world].
  by rewrite Hcreate.
Qed.

Lemma constructor_Throw `{Collaborators}
    name_ columns_ remote_database_ remote_table_ cluster_ context_ sharding_key_ data_path_
    (w : World) e :
  sharding_key_readable (heap w) sharding_key_ →
  File_createDirectory (data_path_ ++ [escapeForFileName name_]) (fs w) = Throw e →
  StorageDistributed.StorageDistributed name_ columns_ remote_database_ remote_table_
    cluster_ context_ sharding_key_ data_path_ w = Throw e.
Proof.
  intros Hkey Hcreate. unfold StorageDistributed.StorageDistributed.
  destruct Hkey as [->|(a & key & -> & Ha)].
  - erewrite bind_Ok by reflexivity.
    unfold StorageDistributed.run_constructor_body.
    by rewrite (createDirectoryMonitors_Throw
                  (StorageDistributed.member_initializers name_ columns_ remote_database_
                     remote_table_ cluster_ context_ nullptr String.EmptyString data_path_)
                  w e Hcreate).
  - erewrite bind_Ok; last first.
    { erewrite bind_Ok; [reflexivity|]. unfold in_heap, zoom, deref. by rewrite Ha. }
    unfold StorageDistributed.run_constructor_body.
    by rewrite (createDirectoryMonitors_Throw
                  (StorageDistributed.member_initializers name_ columns_ remote_database_
                     remote_table_ cluster_ context_ (Some a) (getColumnName key) data_path_)
                  {| heap := heap w; fs := fs w; tasks := tasks w |} e Hcreate).
Qed.

Lemma constructor_Throw_any `{Collaborators}
    name_ columns_ remote_database_ remote_table_ cluster_ context_ sharding_key_ data_path_
    (w : World) e :
  File_createDirectory (data_path_ ++ [escapeForFileName name_]) (fs w) = Throw e →
  ∃ e', StorageDistributed.StorageDistributed name_ columns_ remote_database_ remote_table_
          cluster_ context_ sharding_key_ data_path_ w = Throw e'.
Proof.
  intros Hcreate.
  destruct sharding_key_ as [a|]; [destruct (heap w !! a) as [key|] eqn:Ha|].
  - exists e. apply constructor_Throw; [|done]. right. by exists a, key.
  - exists NULL_DEREFERENCE. unfold StorageDistributed.StorageDistributed.
    unfold mbind at 1, M_bind, bind. unfold mbind, M_bind, bind, in_heap, zoom, deref.
    by rewrite Ha.
  - exists e. apply constructor_Throw; [by left|done].
Qed.

Lemma below_regular_file_parent (fs : FileSystem) (p : Path) (x : string) :
  fs !! p = Some RegularFile → below_regular_file fs (p ++ [x]) = true.
Proof.
  intros Hp. unfold below_regular_file. apply existsb_exists. exists (length p). split.
  - apply in_seq. rewrite length_app. simpl. lia.
  - rewrite take_app_length. by apply bool_decide_eq_true.
Qed.

Lemma below_regular_file_free (fs : FileSystem) (p : Path) (x : string) :
  (∀ q, q `prefix_of` p → fs !! q ≠ Some RegularFile) →
  below_regular_file fs (p ++ [x]) = false.
Proof.
  intros Hfree. destruct (below_regular_file fs (p ++ [x])) eqn:Hbelow; [|done].
  unfold below_regular_file in Hbelow.
  apply existsb_exists in Hbelow as (n & Hn & Hfile).
  apply in_seq in Hn. rewrite length_app in Hn. simpl in Hn.
  apply bool_decide_eq_true in Hfile.
  rewrite take_app_le in Hfile by lia.
  by destruct (Hfree (take n p) (prefix_take p n)).
Qed.

(** X13. When construction fails. Whatever the sharding key, the constructor
    returns only when the spool path is a directory already or is a free name
    directly below an existing data directory: the spool directory is made
    with one [mkdir], never with its parents. Without a sharding key, the
    first thing that can fail is that [mkdir], and the constructor stops with
    FILE_EXISTS when a regular file has the spool path's name, with
    NOT_A_DIRECTORY when the spool path is free and the data path is a
    regular file, and with PATH_NOT_FOUND when the spool path is free and the
    data path is missing, with no regular file on the way to it. *)
Theorem constructor_fails_without_usable_spool `{Collaborators}
    name_ columns_ remote_database_ remote_table_ cluster_ context_ data_path_
    (w : World) :
  let spool := data_path_ ++ [escapeForFileName name_] in
  let construct sharding_key_ :=
    StorageDistributed.StorageDistributed name_ columns_ remote_database_ remote_table_
      cluster_ context_ sharding_key_ data_path_ w in
  (∀ sharding_key_,
     (∃ r, construct sharding_key_ = Ok r) →
     fs w !! spool = Some Directory
     ∨ (fs w !! spool = None ∧ fs w !! data_path_ = Some Directory))
  ∧ (fs w !! spool = Some RegularFile → construct nullptr = Throw FILE_EXISTS)
  ∧ (fs w !! spool = None → fs w !! data_path_ = Some RegularFile →
     construct nullptr = Throw NOT_A_DIRECTORY)
  ∧ (fs w !! spool = None → fs w !! data_path_ = None →
     (∀ q, q `prefix_of` data_path_ → fs w !! q ≠ Some RegularFile) →
     construct nullptr = Throw PATH_NOT_FOUND).
Proof.
  intros spool construct. subst construct. cbv beta.
  assert (Hparent : parent spool = data_path_)
    by (unfold parent; subst spool; apply removelast_last).
  split; [|split; [|split]].
  - intros sharding_key_ [r Hrun].
    assert (Hcreated : ∀ e, File_createDirectory spool (fs w) ≠ Throw e).
    { intros e Hcreate.
      destruct (constructor_Throw_any name_ columns_ remote_database_ remote_table_
                  cluster_ context_ sharding_key_ data_path_ w e Hcreate) as [e' Hthrow].
      by rewrite Hthrow in Hrun. }
    unfold File_createDirectory in Hcreated. rewrite Hparent in Hcreated.
    destruct (fs w !! spool) as [[]|].
    + by destruct (Hcreated FILE_EXISTS).
    + by left.
    + right. split; [done|].
      destruct (fs w !! data_path_) as [[]|]; [|done|].
      * destruct (below_regular_file (fs w) spool);
          [by destruct (Hcreated NOT_A_DIRECTORY)|by destruct (Hcreated PATH_NOT_FOUND)].
      * destruct (below_regular_file (fs w) spool);
          [by destruct (Hcreated NOT_A_DIRECTORY)|by destruct (Hcreated PATH_NOT_FOUND)].
  - intros Hspool. apply constructor_Throw; [by left|].
    unfold File_createDirectory. fold spool. by rewrite Hspool.
  - intros Hspool Hdata. apply constructor_Throw; [by left|].
    unfold File_createDirectory. fold spool. rewrite Hspool, Hparent, Hdata.
    subst spool. by rewrite below_regular_file_parent.
  - intros Hspool Hdata Hfree. apply constructor_Throw; [by left|].
    unfold File_createDirectory. fold spool. rewrite Hspool, Hparent, Hdata.
    subst spool. by rewrite below_regular_file_free.
Qed.

Lemma constructor_fails_without_usable_spool_witness :
  let construct sharding_key_ :=
    StorageDistributed.StorageDistributed (H := Example.collaborators)
      "increment.txt" [] "shard_db" "visits_local"
      Example.two_remote_one_local Example.context sharding_key_ Example.spool
      Example.world in
  Example.disk !! (Example.spool ++ ["increment.txt"]) = Some RegularFile
  ∧ construct nullptr = Throw FILE_EXISTS
  ∧ ∀ sharding_key_, ¬ ∃ r, construct sharding_key_ = Ok r.
Proof.
  intros construct.
  destruct (constructor_fails_without_usable_spool (H := Example.collaborators)
              "increment.txt" [] "shard_db" "visits_local"
              Example.two_remote_one_local Example.context Example.spool Example.world)
    as (Honly & Hfile & _).
  assert (Hspool : Example.disk !! (Example.spool ++ ["increment.txt"]) = Some RegularFile)
    by (by vm_compute).
  split; [exact Hspool|]. split; [exact (Hfile Hspool)|].
  intros sharding_key_ Hrun.
  destruct (Honly sharding_key_ Hrun) as [Hdir|[Hfree _]].
  - change (Example.disk !! (Example.spool ++ ["increment.txt"]) = Some Directory) in Hdir.
    by rewrite Hspool in Hdir.
  - change (Example.disk !! (Example.spool ++ ["increment.txt"]) = None) in Hfree.
    by rewrite Hspool in Hfree.
Defined.

(** X14. A table that accepts writes for several targets has a sharding
    expression. The constructed table has a sharding expression exactly
    when a sharding key was given; its [write_enabled] is false exactly when
    it has none and the cluster has two targets or more; so whenever [write]
    returns a sink on it, either the cluster has fewer than two targets or
    the sharding expression is there. *)
Theorem constructed_table_can_shard_what_it_accepts `{Collaborators}
    name_ columns_ remote_database_ remote_table_ cluster_ context_ sharding_key_ data_path_
    (w : World) :
  Cluster.fits cluster_ →
  sharding_key_readable (heap w) sharding_key_ →
  spool_usable (fs w) (data_path_ ++ [escapeForFileName name_]) →
  let targets := (Cluster.getLocalNodesNum cluster_ + Cluster.pools_size cluster_)%N in
  ∃ self w',
    StorageDistributed.StorageDistributed name_ columns_ remote_database_ remote_table_
      cluster_ context_ sharding_key_ data_path_ w = Ok (self, w')
    ∧ (is_Some (StorageDistributed.sharding_key_expr self) ↔ sharding_key_ ≠ nullptr)
    ∧ (StorageDistributed.write_enabled self = false
       ↔ StorageDistributed.sharding_key_expr self = None ∧ (2 ≤ targets)%N)
    ∧ (∀ query sink o',
         StorageDistributed.write query
           {| StorageDistributed.this := self; StorageDistributed.world := w' |}
           = Ok (sink, o') →
         (targets < 2)%N ∨ is_Some (StorageDistributed.sharding_key_expr self)).
Proof.
  intros Hfits Hkey Husable targets.
  destruct (constructor_run name_ columns_ remote_database_ remote_table_ cluster_ context_
              sharding_key_ data_path_ w Hkey Husable) as [key_column Hrun].
  eexists _, _. split; [exact Hrun|].
  cbn [StorageDistributed.write_enabled StorageDistributed.sharding_key_expr
       StorageDistributed.set_directory_monitors StorageDistributed.member_initializers].
  assert (Hsum : size_t_add (Cluster.getLocalNodesNum cluster_) (Cluster.pools_size cluster_)
                 = targets).
  { unfold size_t_add. apply N.mod_small.
    unfold Cluster.fits, Cluster.getLocalNodesNum in *. subst targets.
    unfold Cluster.getLocalNodesNum. lia. }
  rewrite Hsum.
  assert (Hflag : ((targets <? 2)%N || bool_decide (sharding_key_ ≠ nullptr)) = false
                  ↔ match sharding_key_ with
                     | Some _ => Some {| analyzed_ast := sharding_key_;
                                         analyzed_columns := columns_;
                                         project_result := false |}
                     | None => None
                     end = None ∧ (2 ≤ targets)%N).
  { rewrite orb_false_iff, N.ltb_ge, bool_decide_eq_false.
    destruct sharding_key_ as [a|]; unfold nullptr; naive_solver. }
  split; [|split].
  - destruct sharding_key_ as [a|]; unfold nullptr.
    + split; [done|]. intros _. by eexists.
    + split; [by intros [? ?]|done].
  - exact Hflag.
  - intros query sink o' Hwrite.
    apply write_Ok_inv in Hwrite as [Henabled _].
    cbn [StorageDistributed.this StorageDistributed.write_enabled
         StorageDistributed.set_directory_monitors StorageDistributed.member_initializers]
      in Henabled.
    rewrite Hsum in Henabled.
    destruct (N.ltb_spec targets 2) as [Hlt|Hge]; [by left|]. right.
    cbn [orb] in Henabled. apply bool_decide_eq_true in Henabled.
    destruct sharding_key_ as [a|]; [by eexists|done].
Qed.

Lemma constructed_table_can_shard_what_it_accepts_witness :
  let targets := (0 + 2)%N in
  ∃ self w',
    StorageDistributed.StorageDistributed (H := Example.collaborators)
      "hits_all" [("UserID", "UInt64")] "shard_db" "hits_local"
      Example.two_remote Example.context (Some 2) ["data"; "default"] Example.world
    = Ok (self, w')
    ∧ (is_Some (StorageDistributed.sharding_key_expr self) ↔ Some 2 ≠ nullptr)
    ∧ (StorageDistributed.write_enabled self = false
       ↔ StorageDistributed.sharding_key_expr self = None ∧ (2 ≤ targets)%N)
    ∧ (∀ query sink o',
         StorageDistributed.write query
           {| StorageDistributed.this := self; StorageDistributed.world := w' |}
           = Ok (sink, o') →
         (targets < 2)%N ∨ is_Some (StorageDistributed.sharding_key_expr self)).
Proof.
  intros targets.
  apply (constructed_table_can_shard_what_it_accepts (H := Example.collaborators)
           "hits_all" [("UserID", "UInt64")] "shard_db" "hits_local"
           Example.two_remote Example.context (Some 2) ["data"; "default"] Example.world).
  - by vm_compute.
  - right. exists 2, Example.sharding_key. by split.
  - left. vm_compute. reflexivity.
Defined.

(** X15. Monitors found at construction are not built again. After the
    constructor, [requireDirectoryMonitor] for a shard whose directory was
    below the spool path changes nothing; for any other name it files one
    new monitor and starts its task. *)
Theorem constructor_then_requireDirectoryMonitor `{Collaborators}
    name_ columns_ remote_database_ remote_table_ cluster_ context_ sharding_key_ data_path_
    (w : World) (entry : string) :
  let spool := data_path_ ++ [escapeForFileName name_] in
  sharding_key_readable (heap w) sharding_key_ →
  spool_usable (fs w) spool →
  ∃ self w',
    StorageDistributed.StorageDistributed name_ columns_ remote_database_ remote_table_
      cluster_ context_ sharding_key_ data_path_ w = Ok (self, w')
    ∧ (fs w !! (spool ++ [entry]) = Some Directory →
       StorageDistributed.requireDirectoryMonitor entry
         {| StorageDistributed.this := self; StorageDistributed.world := w' |}
       = Ok (tt, {| StorageDistributed.this := self; StorageDistributed.world := w' |}))
    ∧ (fs w !! (spool ++ [entry]) ≠ Some Directory →
       ∃ o',
         StorageDistributed.requireDirectoryMonitor entry
           {| StorageDistributed.this := self; StorageDistributed.world := w' |}
         = Ok (tt, o')
         ∧ StorageDistributed.directory_monitors (StorageDistributed.this o')
           = <[entry := DirectoryMonitor.Build (length (tasks w')) entry (spool ++ [entry])]>
               (StorageDistributed.directory_monitors self)
         ∧ tasks (StorageDistributed.world o')
           = tasks w' ++ [TaskStarted (length (tasks w')) entry]).
Proof.
  intros spool Hkey Husable.
  destruct (constructor_run name_ columns_ remote_database_ remote_table_ cluster_ context_
              sharding_key_ data_path_ w Hkey Husable) as [key_column Hrun].
  cbn zeta in Hrun. fold spool in Hrun.
  set (fs' := <[spool := Directory]> (fs w)) in *.
  set (found := subdirectories fs' spool (directory_entries fs' spool)) in *.
  assert (Hfound : ∀ name, name ∈ found ↔ fs w !! (spool ++ [name]) = Some Directory).
  { intros name. subst found. rewrite elem_of_subdirectories. subst fs'.
    rewrite lookup_insert_ne; [done|].
    intros Heq. apply (f_equal length) in Heq. rewrite length_app in Heq. cbn in Heq. lia. }
  eexists _, _. split; [exact Hrun|]. split.
  - intros Hdir. apply Hfound in Hdir.
    apply list_elem_of_lookup in Hdir as [k Hk].
    eapply requireDirectoryMonitor_present.
    cbn [StorageDistributed.directory_monitors StorageDistributed.set_directory_monitors].
    apply monitors_for_lookup; [apply NoDup_subdirectories|exact Hk].
  - intros Hnot.
    assert (Hfree : entry ∉ found) by (by rewrite Hfound).
    eexists. split.
    + rewrite requireDirectoryMonitor_absent.
      * apply createDirectoryMonitor_fresh.
        cbn [StorageDistributed.directory_monitors StorageDistributed.set_directory_monitors].
        rewrite monitors_for_lookup_notin by done. apply lookup_empty.
      * cbn [StorageDistributed.directory_monitors StorageDistributed.set_directory_monitors].
        rewrite monitors_for_lookup_notin by done. apply lookup_empty.
    + split; reflexivity.
Qed.

Lemma constructor_then_requireDirectoryMonitor_witness :
  let construct :=
    StorageDistributed.StorageDistributed (H := Example.collaborators)
      "hits_all" [("UserID", "UInt64")] "shard_db" "hits_local"
      Example.two_remote_one_local Example.context nullptr ["data"; "default"] in
  let entry := "shard1" in
  ∃ self w',
    construct Example.world = Ok (self, w')
    ∧ (Example.disk !! (Example.spool ++ [entry]) = Some Directory →
       StorageDistributed.requireDirectoryMonitor entry
         {| StorageDistributed.this := self; StorageDistributed.world := w' |}
       = Ok (tt, {| StorageDistributed.this := self; StorageDistributed.world := w' |}))
    ∧ (Example.disk !! (Example.spool ++ [entry]) ≠ Some Directory →
       ∃ o',
         StorageDistributed.requireDirectoryMonitor entry
           {| StorageDistributed.this := self; StorageDistributed.world := w' |}
         = Ok (tt, o')
         ∧ StorageDistributed.directory_monitors (StorageDistributed.this o')
           = <[entry := DirectoryMonitor.Build (length (tasks w')) entry
                          (Example.spool ++ [entry])]>
               (StorageDistributed.directory_monitors self)
         ∧ tasks (StorageDistributed.world o')
           = tasks w' ++ [TaskStarted (length (tasks w')) entry]).
Proof.
  apply (constructor_then_requireDirectoryMonitor (H := Example.collaborators)
           "hits_all" [("UserID", "UInt64")] "shard_db" "hits_local"
           Example.two_remote_one_local Example.context nullptr ["data"; "default"]
           Example.world "shard1").
  - by left.
  - left. vm_compute. reflexivity.
Defined.

(** ** Columns and the write path *)

(** X16. [hasColumn] and [getColumn] agree, as far as the two lookups they
    rest on agree: when the virtual-column factory's [hasColumn] holds for
    the name exactly if its [tryGetType] knows a type, and [hasRealColumn]
    holds exactly if [getRealColumn] returns, then [hasColumn] holds exactly
    if [getColumn] returns, and the column it returns has the name asked
    for whenever the real lookup's has. *)
Theorem hasColumn_iff_getColumn_returns `{Collaborators}
    (self : StorageDistributed.t) (column_name : string) :
  (VirtualColumnFactory_hasColumn column_name = true
   ↔ is_Some (VirtualColumnFactory_tryGetType column_name)) →
  (hasRealColumn (StorageDistributed.columns self) column_name = true
   ↔ ∃ column, getRealColumn (StorageDistributed.columns self) column_name = Ok column) →
  (StorageDistributed.hasColumn self column_name = true
   ↔ ∃ column, StorageDistributed.getColumn self column_name = Ok column)
  ∧ ((∀ column, getRealColumn (StorageDistributed.columns self) column_name = Ok column →
                column.1 = column_name) →
     ∀ column, StorageDistributed.getColumn self column_name = Ok column →
               column.1 = column_name).
Proof.
  intros Hvirtual Hreal.
  unfold StorageDistributed.hasColumn, StorageDistributed.getColumn.
  rewrite orb_true_iff, Hvirtual, Hreal.
  destruct (VirtualColumnFactory_tryGetType column_name) as [type|]; split.
  - split; [intros _; by eexists|intros _; left; by eexists].
  - by intros _ column [= <-].
  - split; [intros [[? ?]|?]; done|by right].
  - done.
Qed.

Lemma hasColumn_iff_getColumn_returns_witness :
  let self := Example.table Example.two_remote_one_local true in
  (StorageDistributed.hasColumn (H := Example.collaborators) self "_table" = true
   ↔ ∃ column, StorageDistributed.getColumn (H := Example.collaborators) self "_table"
               = Ok column)
  ∧ ((∀ column, getRealColumn (Collaborators := Example.collaborators)
                  (StorageDistributed.columns self) "_table" = Ok column →
                column.1 = "_table") →
     ∀ column, StorageDistributed.getColumn (H := Example.collaborators) self "_table"
               = Ok column →
               column.1 = "_table").
Proof.
  intros self.
  apply (hasColumn_iff_getColumn_returns (H := Example.collaborators) self "_table").
  - split; [intros _; by eexists|reflexivity].
  - split; [intros _; by eexists|reflexivity].
Defined.

(** X17. What [write] touches. Whenever it returns, the sink names the
    table and points at one new object appended to the store; the table, the
    file system and the task log are as before: [write] itself spools
    nothing and starts no monitor. *)
Theorem write_touches_only_its_copy query (o : StorageDistributed.Obj) sink o' :
  StorageDistributed.write query o = Ok (sink, o') →
  StorageDistributed.this o' = StorageDistributed.this o
  ∧ fs (StorageDistributed.world o') = fs (StorageDistributed.world o)
  ∧ tasks (StorageDistributed.world o') = tasks (StorageDistributed.world o)
  ∧ sink_storage sink = StorageDistributed.name (StorageDistributed.this o)
  ∧ sink_query_ast sink = Some (length (heap (StorageDistributed.world o)))
  ∧ ∃ copy,
      heap (StorageDistributed.world o') = heap (StorageDistributed.world o) ++ [copy]
      ∧ ∃ children,
          copy = InsertQuery
                   (StorageDistributed.remote_database (StorageDistributed.this o))
                   (StorageDistributed.remote_table (StorageDistributed.this o))
                   None children.
Proof.
  intros Hwrite.
  apply write_Ok_inv in Hwrite as (_ & a & d & t & s & c & _ & _ & -> & ->).
  cbn [StorageDistributed.this StorageDistributed.world heap fs tasks
       sink_storage sink_query_ast].
  do 5 (split; [done|]). eexists. split; [done|]. by eexists.
Qed.

Lemma write_touches_only_its_copy_witness :
  let o := {| StorageDistributed.this := Example.monitored_table;
              StorageDistributed.world := Example.monitored_world |} in
  let copy := InsertQuery "shard_db" "hits_local" None [OtherNode "(UserID, URL)" []] in
  let o' := {| StorageDistributed.this := Example.monitored_table;
               StorageDistributed.world :=
                 {| heap := heap Example.monitored_world ++ [copy];
                    fs := fs Example.monitored_world;
                    tasks := tasks Example.monitored_world |} |} in
  StorageDistributed.this o' = StorageDistributed.this o
  ∧ fs (StorageDistributed.world o') = fs (StorageDistributed.world o)
  ∧ tasks (StorageDistributed.world o') = tasks (StorageDistributed.world o)
  ∧ sink_storage {| sink_storage := "hits_all"; sink_query_ast := Some 3 |}
    = StorageDistributed.name (StorageDistributed.this o)
  ∧ sink_query_ast {| sink_storage := "hits_all"; sink_query_ast := Some 3 |}
    = Some (length (heap (StorageDistributed.world o)))
  ∧ ∃ copy,
      heap (StorageDistributed.world o') = heap (StorageDistributed.world o) ++ [copy]
      ∧ ∃ children, copy = InsertQuery "shard_db" "hits_local" None children.
Proof.
  intros o copy o'.
  apply (write_touches_only_its_copy (Some 0) o
           {| sink_storage := "hits_all"; sink_query_ast := Some 3 |} o').
  reflexivity.
Defined.
